(** * Careerwill downloader: discovery and orchestration engine

    A shallow embedding of [careerwill.py] (class [CareerwillDownloader])
    and the properties of its manifest extractor, course-link discoverer,
    cookie loader and download orchestrator.

    Python [str] values are modelled as [string], whose characters stand
    for the code points below 256; a Python [set] of strings is a
    [gset string]; iteration over a set ([for url in manifests],
    [list(normalized)]) walks [elements], one fixed order standing for
    Python's unspecified one.  The markup parser
    (BeautifulSoup), [urllib.parse.urljoin], the HTTP session and the
    yt-dlp tool are collaborators outside the module: they appear as
    section variables.

    The pattern literal of the two scans is malformed as the file has
    it (module [Tokenizer]); module [Pattern] and the extractor embed the
    pattern it evidently stands for, and [discover_with] leaves the scan
    open. *)

From Stdlib Require Import ZArith Ascii.
From Stdlib Require String DecimalString DecimalNat.
From stdpp Require Import gmap strings list sorting sets.

(** ** String primitives *)

Module Str.

(** The double-quote character, code point 34. *)
Definition dquote : ascii := "034"%char.
(** The single-quote character, code point 39. *)
Definition squote : ascii := "039"%char.

(** [s.startswith(pre)] *)
Definition startswith (pre s : string) : bool := String.prefix pre s.

(** [s[n:]] *)
Fixpoint drop (n : nat) (s : string) : string :=
  match n, s with
  | O, _ => s
  | S _, EmptyString => EmptyString
  | S k, String _ s' => drop k s'
  end.

(** [needle in hay] *)
Fixpoint contains (needle hay : string) : bool :=
  String.prefix needle hay ||
  match hay with
  | EmptyString => false
  | String _ hay' => contains needle hay'
  end.

(** [s.split(sep)] for a one-character separator: never empty. *)
Fixpoint split (sep : ascii) (s : string) : list string :=
  match s with
  | EmptyString => [EmptyString]
  | String c s' =>
      if Ascii.eqb c sep then EmptyString :: split sep s'
      else match split sep s' with
           | [] => [String c EmptyString]
           | f :: fs => String c f :: fs
           end
  end.

(** [w] occurs in [s] as a contiguous block. *)
Definition substring_of (w s : string) : Prop :=
  ∃ pre post, s = pre +:+ w +:+ post.

End Str.

(** ** The pattern literal as the file has it

    Lines 66 and 74 hand [re.findall] the pattern as a raw string literal
    between double quotes.  In the first character class of the pattern
    the double quote is written bare, and a bare double quote ends a
    literal: Python reads a literal that stops inside the class, then
    meets a closing square bracket while the parenthesis of the call is
    the innermost open bracket, and rejects the line with a syntax
    error.  A module is compiled whole before any of it runs, so as the
    file stands no method of the class can be called.

    This module embeds the two lines as text, with the tokenizer's rules
    for brackets, comments and string literals that stay on one line. *)

Module Tokenizer.
Import Str.

Definition backslash : ascii := "092"%char.
Definition q : string := String dquote "".
Definition bs : string := String backslash "".

(** The pattern argument as written on both lines, from the character
    after its opening double quote to its last double quote. *)
Definition pattern_text : string :=
  "(https?://[^" +:+ q +:+ "]+?" +:+ bs +:+ ".(?:m3u8|mpd)(?:" +:+ bs
  +:+ "?[^" +:+ bs +:+ q +:+ "']*)?)" +:+ q.

(** Line 66, the scan of the page text, and line 74, the scan of a
    script text. *)
Definition line_66 : string :=
  "        for m in re.findall(r" +:+ q +:+ pattern_text +:+ ", html):".
Definition line_74 : string :=
  "            for m in re.findall(r" +:+ q +:+ pattern_text
  +:+ ", script.string):".

(** Line 66 with a backslash before the double quote of the first
    class, as the second class has one. *)
Definition escaped_pattern_text : string :=
  "(https?://[^" +:+ bs +:+ q +:+ "]+?" +:+ bs +:+ ".(?:m3u8|mpd)(?:" +:+ bs
  +:+ "?[^" +:+ bs +:+ q +:+ "']*)?)" +:+ q.
Definition escaped_line_66 : string :=
  "        for m in re.findall(r" +:+ q +:+ escaped_pattern_text
  +:+ ", html):".

(** The call up to the closing square bracket of the first class. *)
Definition call_head : string :=
  "re.findall(r" +:+ q +:+ "(https?://[^" +:+ q +:+ "]".

(** A string literal whose opening quote has just been read: its text,
    and what follows its closing quote.  A backslash keeps the character
    after it inside the literal, and in a raw literal both stay in the
    text.  [None]: the line ends before the literal does. *)
Fixpoint literal (quote : ascii) (s : string) : option (string * string) :=
  match s with
  | EmptyString => None
  | String c s' =>
      if Ascii.eqb c quote then Some (EmptyString, s')
      else if Ascii.eqb c backslash then
        match s' with
        | EmptyString => None
        | String d s'' =>
            (λ br, (String c (String d br.1), br.2)) <$> literal quote s''
        end
      else (λ br, (String c br.1, br.2)) <$> literal quote s'
  end.

Inductive mode :=
  | Code
  | Literal (quote : ascii)
  | Escaped (quote : ascii)
  | Comment.

Inductive error :=
  | Mismatch (closing opening : ascii)
  | Unmatched (closing : ascii).

(** [Reads opened m]: the text so far is accepted, with the brackets
    [opened] still open, innermost first, and the tokenizer in mode
    [m]. *)
Inductive verdict :=
  | Reads (opened : list ascii) (m : mode)
  | SyntaxError (e : error).

Definition is_opener (c : ascii) : bool :=
  Ascii.eqb c "("%char || Ascii.eqb c "["%char || Ascii.eqb c "{"%char.

(** The bracket that [c] closes. *)
Definition opener_of (c : ascii) : option ascii :=
  if Ascii.eqb c ")"%char then Some "("%char
  else if Ascii.eqb c "]"%char then Some "["%char
  else if Ascii.eqb c "}"%char then Some "{"%char
  else None.

(** One character.  A closing bracket must close the innermost open
    one. *)
Definition step (opened : list ascii) (m : mode) (c : ascii) : verdict :=
  match m with
  | Comment => Reads opened Comment
  | Escaped quote => Reads opened (Literal quote)
  | Literal quote =>
      if Ascii.eqb c backslash then Reads opened (Escaped quote)
      else if Ascii.eqb c quote then Reads opened Code
      else Reads opened (Literal quote)
  | Code =>
      if Ascii.eqb c dquote || Ascii.eqb c squote
      then Reads opened (Literal c)
      else if Ascii.eqb c "#"%char then Reads opened Comment
      else if is_opener c then Reads (c :: opened) Code
      else
        match opener_of c with
        | None => Reads opened Code
        | Some o =>
            match opened with
            | [] => SyntaxError (Unmatched c)
            | top :: rest =>
                if Ascii.eqb top o then Reads rest Code
                else SyntaxError (Mismatch c top)
            end
        end
  end.

Fixpoint tokenize (opened : list ascii) (m : mode) (s : string) : verdict :=
  match s with
  | EmptyString => Reads opened m
  | String c s' =>
      match step opened m c with
      | Reads opened' m' => tokenize opened' m' s'
      | SyntaxError e => SyntaxError e
      end
  end.

(** A line read from its start. *)
Definition check_line (s : string) : verdict := tokenize [] Code s.

End Tokenizer.

(** ** The scanning pattern

    Both scans of [discover_manifest_urls] use one pattern.  With DQ for
    the double quote and SQ for the single quote, it is the sequence of
      - [https?://]        the scheme prefix,
      - [[^DQ]+?]          a lazy, non-empty run of characters other than DQ,
      - [\.(?:m3u8|mpd)]   one of the two extensions,
      - [(?:\?Q)?]         an optional query part, greedy, where Q is the
                           starred class of characters other than DQ and SQ,
    the whole enclosed in one capturing group, so that [re.findall] returns
    the text of each match.  This is the pattern with the double quote
    of its first class escaped, as the one of its second class is; the
    literal as the file has it is the subject of [Tokenizer]. *)

Module Pattern.
Import Str.

Definition is_dquote (c : ascii) : bool := Ascii.eqb c dquote.
Definition is_quote (c : ascii) : bool :=
  Ascii.eqb c dquote || Ascii.eqb c squote.

(** The starred class Q, greedy: the longest run free of both quotes. *)
Fixpoint query_run (s : string) : string :=
  match s with
  | EmptyString => EmptyString
  | String c s' => if is_quote c then EmptyString else String c (query_run s')
  end.

(** [(?:\?Q)?], greedy and last in the pattern: it never fails. *)
Definition opt_query (s : string) : string :=
  match s with
  | String "?"%char s' => String "?"%char (query_run s')
  | _ => EmptyString
  end.

(** [\.(?:m3u8|mpd)] *)
Definition ext_at (s : string) : option string :=
  if startswith ".m3u8" s then Some ".m3u8"
  else if startswith ".mpd" s then Some ".mpd"
  else None.

(** Extension, then the optional query part. *)
Definition tail_at (s : string) : option string :=
  match ext_at s with
  | Some e => Some (e +:+ opt_query (drop (String.length e) s))
  | None => None
  end.

(** [[^DQ]+?] once its first character is consumed: try the rest of the
    pattern here, and only on failure take one more character. *)
Fixpoint body_more (s : string) : option string :=
  match tail_at s with
  | Some t => Some t
  | None =>
      match s with
      | EmptyString => None
      | String c s' =>
          if is_dquote c then None else String c <$> body_more s'
      end
  end.

(** [[^DQ]+?] followed by the rest of the pattern. *)
Definition body_at (s : string) : option string :=
  match s with
  | EmptyString => None
  | String c s' => if is_dquote c then None else String c <$> body_more s'
  end.

(** A match of the whole pattern anchored at the start of [s]. *)
Definition match_at (s : string) : option string :=
  if startswith "https://" s then String.append "https://" <$> body_at (drop 8 s)
  else if startswith "http://" s then String.append "http://" <$> body_at (drop 7 s)
  else None.

(** [re.findall(pattern, s)]: leftmost matches, not overlapping.  The
    counter [skip] is the number of characters of the last match still to
    step over, which keeps the recursion structural. *)
Fixpoint findall_from (skip : nat) (s : string) : list string :=
  match s with
  | EmptyString => []
  | String _ s' =>
      match skip with
      | S k => findall_from k s'
      | O =>
          match match_at s with
          | Some m => m :: findall_from (String.length m - 1) s'
          | None => findall_from 0 s'
          end
      end
  end.

Definition findall (s : string) : list string := findall_from 0 s.

(** The language of the pattern, stated on its own. *)
Definition no_dquote (s : string) : Prop :=
  Forall (λ c, c ≠ dquote) (String.list_ascii_of_string s).
Definition no_quote (s : string) : Prop :=
  Forall (λ c, c ≠ dquote ∧ c ≠ squote) (String.list_ascii_of_string s).

Inductive manifest_pattern : string → Prop :=
  | manifest_pattern_intro scheme body ext query :
      scheme = "http://" ∨ scheme = "https://" →
      body ≠ EmptyString → no_dquote body →
      ext = ".m3u8" ∨ ext = ".mpd" →
      (query = EmptyString ∨
       ∃ q, query = String "?"%char q ∧ no_quote q) →
      manifest_pattern (scheme +:+ body +:+ ext +:+ query).

End Pattern.

(** ** Manifest extractor: [discover_manifest_urls] *)

Section Extractor.

(** The markup parser: [script_tags html] is, for every [script] element
    of [BeautifulSoup(html, 'lxml')] in document order, its [.string]
    ([None] when the element has no single text child). *)
Variable script_tags : string → list (option string).

(** [urllib.parse.urljoin]. *)
Variable urljoin : string → string → string.

(** [for m in xs: acc.add(m)] *)
Definition add_all (xs : list string) (acc : gset string) : gset string :=
  foldl (λ acc m, {[m]} ∪ acc) acc xs.

(** One script element: skipped when [not script.string]. *)
Definition scan_script (acc : gset string) (script : option string)
  : gset string :=
  match script with
  | None => acc
  | Some EmptyString => acc
  | Some str => add_all (Pattern.findall str) acc
  end.

(** The set [manifests] once both scans are done. *)
Definition candidates (html : string) : gset string :=
  foldl scan_script (add_all (Pattern.findall html) ∅) (script_tags html).

(** One iteration of the normalising loop. *)
Definition normalize_step (base_url : string) (acc : gset string)
    (url : string) : gset string :=
  if Str.startswith "/" url then {[urljoin base_url url]} ∪ acc
  else {[url]} ∪ acc.

Definition discover_manifest_urls (html base_url : string) : list string :=
  let manifests := candidates html in
  let normalized :=
    foldl (normalize_step base_url) ∅ (elements manifests) in
  elements normalized.

End Extractor.

(** ** The extractor over any scan

    [discover_manifest_urls] once more, with [re.findall(pattern, text)]
    left open as [scan]: what the method does with the matches, whatever
    pattern the two scans are given. *)

Section ExtractorOver.

Variable scan : string → list string.
Variable script_tags : string → list (option string).
Variable urljoin : string → string → string.

(** One script element: skipped when [not script.string]. *)
Definition scan_script_with (acc : gset string) (script : option string)
  : gset string :=
  match script with
  | None => acc
  | Some EmptyString => acc
  | Some str => add_all (scan str) acc
  end.

(** The set [manifests] once both scans are done. *)
Definition candidates_with (html : string) : gset string :=
  foldl scan_script_with (add_all (scan html) ∅) (script_tags html).

Definition discover_with (html base_url : string) : list string :=
  let manifests := candidates_with html in
  let normalized :=
    foldl (normalize_step urljoin base_url) ∅ (elements manifests) in
  elements normalized.

End ExtractorOver.

(** ** Course-link discovery: the pure part of [get_enrolled_courses] *)

Section Links.

Variable urljoin : string → string → string.

(** The [# normalize] step on one [href]. *)
Definition normalize_href (dashboard_url href : string) : string :=
  if Str.startswith "/" href then urljoin dashboard_url href else href.

(** ['/course/' in href or '/learn/' in href] *)
Definition qualifies (href : string) : bool :=
  Str.contains "/course/" href || Str.contains "/learn/" href.

(** [href.split('?')[0]] *)
Definition strip_query (href : string) : string :=
  hd EmptyString (Str.split "?" href).

(** The body of [for a in soup.find_all('a', href=True)]. *)
Definition link_step (dashboard_url : string) (acc : gset string)
    (href : string) : gset string :=
  let href := normalize_href dashboard_url href in
  if qualifies href then {[strip_query href]} ∪ acc else acc.

Definition course_candidates (dashboard_url : string) (hrefs : list string)
  : gset string :=
  foldl (link_step dashboard_url) ∅ hrefs.

(** [sorted(candidates)]: Python orders [str] by code point,
    lexicographically, which is [String.le]. *)
Definition sorted (xs : gset string) : list string :=
  merge_sort String.le (elements xs).

End Links.

(** ** Cookie file lines: the loop of [__init__] *)

Module Cookies.

Record cookie := Cookie { domain : string; name : string; value : string }.

Definition tab : ascii := "009"%char.
Definition LF : ascii := "010"%char.
Definition CR : ascii := "013"%char.

Definition code (c : ascii) : nat := nat_of_ascii c.

(** Line boundaries of [str.splitlines], among code points below 256. *)
Definition is_linebreak (c : ascii) : bool :=
  bool_decide (code c ∈ [10; 11; 12; 13; 28; 29; 30; 133]).

(** White space in the sense of [str.strip()], same range. *)
Definition is_space (c : ascii) : bool :=
  bool_decide (code c ∈ [9; 10; 11; 12; 13; 28; 29; 30; 31; 32; 133; 160]).

(** [raw.splitlines()]: a CR directly followed by LF is one boundary, and
    no empty line is reported after a final boundary. *)
Fixpoint splitlines (s : string) : list string :=
  match s with
  | EmptyString => []
  | String c s' =>
      if is_linebreak c then
        if Ascii.eqb c CR && Str.startswith (String LF EmptyString) s'
        then splitlines s'
        else EmptyString :: splitlines s'
      else match splitlines s' with
           | [] => [String c EmptyString]
           | l :: ls => String c l :: ls
           end
  end.

(** [not line.strip()] *)
Fixpoint is_blank (line : string) : bool :=
  match line with
  | EmptyString => true
  | String c line' => is_space c && is_blank line'
  end.

(** [line.startswith('#') or not line.strip()] *)
Definition ignored (line : string) : bool :=
  Str.startswith "#" line || is_blank line.

(** One iteration of [for line in raw.splitlines()]; [jar] is the
    sequence of [session.cookies.set(name, value, domain=domain)] calls
    made so far. *)
Definition load_line (jar : list cookie) (line : string) : list cookie :=
  if ignored line then jar
  else
    let parts := Str.split tab line in
    if bool_decide (7 ≤ length parts) then
      match parts !! 0, parts !! 5, parts !! 6 with
      | Some d, Some n, Some v => jar ++ [Cookie d n v]
      | _, _, _ => jar
      end
    else jar.

Definition load_cookies (jar : list cookie) (raw : string) : list cookie :=
  foldl load_line jar (splitlines raw).

End Cookies.

(** ** Effects: exceptions, the event trace and its monad *)

(** Exceptions deriving from [Exception]; [except Exception] catches each
    of them. *)
Inductive exn :=
  | RuntimeError (msg : string)
  | HTTPError (status : Z)
  | ConnectionError (msg : string)
  | DownloadError (msg : string)
  | OSError (msg : string)
  | UnicodeDecodeError (msg : string).

Inductive result (A : Type) :=
  | Ok (a : A)
  | Raise (e : exn).
Global Arguments Ok {A} a.
Global Arguments Raise {A} e.

Inductive level := INFO | WARNING | ERROR.

Inductive arg :=
  | AStr (s : string)
  | AInt (n : nat).

(** The options dictionary handed to [yt_dlp.YoutubeDL]. *)
Record ydl_opts := YdlOpts {
  outtmpl : string;
  allow_unplayable_formats : bool;
  noplaylist : bool;
  quiet : bool
}.

(** What the program does to the outside, in order.  [logger.exception]
    is a record at level [ERROR] that carries the exception. *)
Inductive event :=
  | Log (lvl : level) (msg : string) (args : list arg) (exc : option exn)
  | MakeDirs (path : string)
  | ReadFile (path : string)
  | Get (url : string)
  | YoutubeDL (opts : ydl_opts)
  | Download (opts : ydl_opts) (urls : list string).

(** A computation: the events it emitted, and how it ended. *)
Definition M (A : Type) : Type := list event * result A.

Global Instance M_ret : MRet M := λ A a, ([], Ok a).
Global Instance M_bind : MBind M := λ A B f m,
  match m with
  | (t, Ok a) => let '(t', r) := f a in (t ++ t', r)
  | (t, Raise e) => (t, Raise e)
  end.

Definition raise {A} (e : exn) : M A := ([], Raise e).
Definition emit (ev : event) : M unit := ([ev], Ok ()).

(** [try: body / except Exception: handler] *)
Definition try_except {A} (body : M A) (handler : exn → M A) : M A :=
  match body with
  | (t, Raise e) => let '(t', r) := handler e in (t ++ t', r)
  | (t, Ok a) => (t, Ok a)
  end.

(** [for x in xs: body x] *)
Fixpoint for_each {A} (xs : list A) (body : A → M unit) : M unit :=
  match xs with
  | [] => mret ()
  | x :: xs' => body x ;; for_each xs' body
  end.

(** [enumerate(xs, start)] *)
Fixpoint enumerate {A} (start : nat) (xs : list A) : list (nat * A) :=
  match xs with
  | [] => []
  | x :: xs' => (start, x) :: enumerate (S start) xs'
  end.

Definition trace {A} (m : M A) : list event := m.1.
Definition outcome {A} (m : M A) : result A := m.2.

Definition logger_info (msg : string) (args : list arg) : M unit :=
  emit (Log INFO msg args None).
Definition logger_warning (msg : string) (args : list arg) : M unit :=
  emit (Log WARNING msg args None).
Definition logger_exception (msg : string) (args : list arg) (e : exn)
  : M unit :=
  emit (Log ERROR msg args (Some e)).

(** ** Paths and numbers *)

Module Path.

Fixpoint ends_with_sep (s : string) : bool :=
  match s with
  | EmptyString => false
  | String c EmptyString => Ascii.eqb c "/"%char
  | String _ s' => ends_with_sep s'
  end.

(** [os.path.join(a, b)], POSIX flavour. *)
Definition join (a b : string) : string :=
  if Str.startswith "/" b then b
  else if bool_decide (a = EmptyString) || ends_with_sep a then a +:+ b
  else a +:+ "/" +:+ b.

(** [str(i)] for a natural number, as in [f'manifest_{i}']. *)
Definition decimal (i : nat) : string :=
  DecimalString.NilEmpty.string_of_uint (Nat.to_uint i).

End Path.

(** ** The downloader object and its methods *)

Record response := Response { status_code : Z; text : string }.

(** A [requests.Session], as far as the module touches it: its headers,
    and under [cookies] the calls
    [session.cookies.set(name, value, domain=domain)] it has received, in
    order.  What the jar of the HTTP library keeps of these calls (one
    cookie per domain, path and name) is the library's business. *)
Record session := Session {
  headers : gmap string string;
  cookies : list Cookies.cookie
}.

(** The [set] calls a session has received. *)
Definition set_calls (s : session) : list Cookies.cookie := cookies s.

Record downloader := Downloader {
  dl_session : session;
  bearer_token : option string;
  cookies_file : option string;
  widevine_keys : gmap string string;
  output_dir : string
}.

(** Truth value of an optional string: [None] and [''] are false. *)
Definition truthy (o : option string) : bool :=
  match o with
  | None | Some EmptyString => false
  | Some _ => true
  end.

Section Downloader.

(** *** The collaborators

    A collaborator that can fail in the model returns a [result] or an
    optional error; the others ([os.getcwd], [os.path.exists], the markup
    parser, [urljoin]) are taken to return. *)

(** [os.getcwd()], [os.makedirs(path, exist_ok=True)] (the error it
    raises, if any), [os.path.exists] and reading a text file as UTF-8. *)
Variable getcwd : string.
Variable makedirs_error : string → option exn.
Variable path_exists : string → bool.
Variable read_text : string → result string.

(** The headers of a fresh [requests.Session()]. *)
Variable default_headers : gmap string string.
(** [session.get(url)]: an exception or a response. *)
Variable session_get : session → string → result response.
(** [resp.raise_for_status()]: the error it raises, if any. *)
Variable http_error : response → option exn.

(** The markup parser: the [.string] of every [script] element, and the
    [href] of every [a] element that has one, in document order. *)
Variable script_tags : string → list (option string).
Variable anchor_hrefs : string → list string.
Variable urljoin : string → string → string.

(** The module-level name [yt_dlp]: [None] when the import failed,
    else the tool.  Building [yt_dlp.YoutubeDL(opts)] raises or gives an
    object whose [download(urls)] raises or completes. *)
Variable yt_dlp : option (ydl_opts → result (list string → option exn)).

Definition os_makedirs (path : string) : M unit :=
  emit (MakeDirs path) ;;
  match makedirs_error path with
  | Some e => raise e
  | None => mret ()
  end.

Definition open_read (path : string) : M string :=
  emit (ReadFile path) ;;
  match read_text path with
  | Raise e => raise e
  | Ok raw => mret raw
  end.

Definition get (s : session) (url : string) : M response :=
  emit (Get url) ;;
  match session_get s url with
  | Raise e => raise e
  | Ok resp => mret resp
  end.

Definition raise_for_status (resp : response) : M unit :=
  match http_error resp with
  | Some e => raise e
  | None => mret ()
  end.

(** [__init__] *)
Definition init (bearer_token cookies_file : option string)
    (widevine_keys : option (gmap string string))
    (output_dir : option string) : M downloader :=
  let out :=
    if truthy output_dir then default EmptyString output_dir
    else Path.join getcwd "careerwill_out" in
  os_makedirs out ;;
  sess ←
    (if truthy bearer_token then
       mret (Session
               (<["Authorization" :=
                    "Bearer " +:+ default EmptyString bearer_token]>
                  default_headers) [])
     else if truthy cookies_file
               && path_exists (default EmptyString cookies_file) then
       try_except
         (raw ← open_read (default EmptyString cookies_file);
          mret (Session default_headers (Cookies.load_cookies [] raw)))
         (λ e, logger_exception "Failed to load cookies file" [] e ;;
               mret (Session default_headers []))
     else mret (Session default_headers []));
  mret (Downloader sess bearer_token cookies_file
          (default ∅ widevine_keys) out).

Variable self : downloader.

Definition fetch_course_page (course_url : string) : M string :=
  resp ← get (dl_session self) course_url;
  raise_for_status resp ;;
  mret (text resp).

Definition download_manifest_with_ytdlp (manifest_url out_dir : string)
    (filename : option string) : M unit :=
  match yt_dlp with
  | None => raise (RuntimeError "yt_dlp not installed in environment")
  | Some tool =>
      let opts :=
        YdlOpts
          (Path.join out_dir
             (if truthy filename then default EmptyString filename
              else "%(title)s.%(ext)s"))
          true true false in
      emit (YoutubeDL opts) ;;
      match tool opts with
      | Raise e => raise e
      | Ok ydl =>
          logger_info "Downloading manifest: %s" [AStr manifest_url] ;;
          emit (Download opts [manifest_url]) ;;
          match ydl [manifest_url] with
          | Some e => raise e
          | None => mret ()
          end
      end
  end.

(** The directory [out_subdir] of the loop below, for the index [i]. *)
Definition out_subdir (i : nat) : string :=
  Path.join (output_dir self) ("manifest_" +:+ Path.decimal i).

(** The body of [for i, m in enumerate(manifests, start=1)]. *)
Definition download_step (im : nat * string) : M unit :=
  let '(i, m) := im in
  os_makedirs (out_subdir i) ;;
  try_except
    (download_manifest_with_ytdlp m (out_subdir i) None)
    (λ e, logger_exception "Failed to download manifest: %s" [AStr m] e).

Definition download_course (course_url : string) : M unit :=
  logger_info "Fetching course page: %s" [AStr course_url] ;;
  html ← fetch_course_page course_url;
  let manifests :=
    discover_manifest_urls script_tags urljoin html course_url in
  logger_info "Found %d manifest(s)" [AInt (length manifests)] ;;
  match manifests with
  | [] =>
      logger_warning
        "No manifest URLs found in page. The site may use an API or DRM-protected packaging."
        []
  | _ => for_each (enumerate 1 manifests) download_step
  end.

Definition get_enrolled_courses (dashboard_url : option string)
  : M (list string) :=
  let dashboard_url :=
    default "https://web.careerwill.com/" dashboard_url in
  fetched ←
    try_except
      (resp ← get (dl_session self) dashboard_url;
       raise_for_status resp ;;
       mret (Some resp))
      (λ e, logger_exception "Failed to fetch dashboard URL: %s"
              [AStr dashboard_url] e ;;
            mret None);
  match fetched with
  | None => mret []
  | Some resp =>
      let candidates :=
        course_candidates urljoin dashboard_url (anchor_hrefs (text resp)) in
      let results := sorted candidates in
      logger_info "Discovered %d enrolled course(s)"
        [AInt (length results)] ;;
      mret results
  end.

End Downloader.

(** ** Vocabulary of the statements about runs *)

Section RunVocabulary.

Variable session_get : session → string → result response.
Variable http_error : response → option exn.
Variable yt_dlp : option (ydl_opts → result (list string → option exn)).
Variable self : downloader.

(** Fetching [url] fails with [e]: [session.get] raises it, or the
    response comes back and [raise_for_status] raises it. *)
Definition fetch_fails (url : string) (e : exn) : Prop :=
  session_get (dl_session self) url = Raise e ∨
  ∃ resp, session_get (dl_session self) url = Ok resp ∧
          http_error resp = Some e.

(** Fetching [url] gives the response [resp], which passes
    [raise_for_status]. *)
Definition fetch_gives (url : string) (resp : response) : Prop :=
  session_get (dl_session self) url = Ok resp ∧ http_error resp = None.

Definition success_status (resp : response) : Prop :=
  (200 ≤ status_code resp < 300)%Z.

(** The download attempt for manifest [m], numbered [i]. *)
Definition attempt (i : nat) (m : string) : M unit :=
  download_manifest_with_ytdlp yt_dlp m (out_subdir self i) None.

(** What one iteration of the loop leaves in the trace: the directory,
    the attempt, and the failure record when the attempt raises. *)
Definition isolated_attempt (im : nat * string) : list event :=
  MakeDirs (out_subdir self im.1) ::
  trace (attempt im.1 im.2) ++
  match outcome (attempt im.1 im.2) with
  | Raise e =>
      [Log ERROR "Failed to download manifest: %s" [AStr im.2] (Some e)]
  | Ok _ => []
  end.

End RunVocabulary.

(** ** Vocabulary of the statements *)

Module Spec.
Import Str Pattern.

(** Extension followed by the optional query part. *)
Definition tail_shape (t : string) : Prop :=
  ∃ ext query, t = ext +:+ query ∧
    (ext = ".m3u8" ∨ ext = ".mpd") ∧
    (query = "" ∨ ∃ q, query = String "?"%char q ∧ no_quote q).

(** No word of the pattern's language occurs in [s]. *)
Definition no_match (s : string) : Prop :=
  ∀ w, substring_of w s → ¬ manifest_pattern w.

End Spec.

(** ** Sample inputs *)

Module Sample.

Definition q : string := String Str.dquote "".

(** The inline script of the sample course page. *)
Definition script1 : string :=
  "var cfg={" +:+ q +:+ "src" +:+ q +:+ ":" +:+ q
  +:+ "https://cdn.example.com/a.m3u8" +:+ q +:+ "}".

(** The sample course page: one script block, one visible link. *)
Definition page1 : string :=
  "<script>" +:+ script1 +:+ "</script>"
  +:+ "<a href=" +:+ q +:+ "/video/b.mpd" +:+ q +:+ ">b</a>".

Definition base1 : string := "https://site.example/course/1".

(** A markup parser's view of [page1]. *)
Definition tags1 (html : string) : list (option string) := [Some script1].

(** The scheme and authority of an absolute URL: all before the third
    slash. *)
Fixpoint origin_go (slashes : nat) (s : string) : string :=
  match s with
  | EmptyString => EmptyString
  | String c s' =>
      if Ascii.eqb c "/"%char then
        match slashes with
        | O => EmptyString
        | S k => String c (origin_go k s')
        end
      else String c (origin_go slashes s')
  end.

(** [urljoin] on a root-relative reference free of dot segments: the
    origin of the base, then the reference. *)
Definition urljoin1 (base url : string) : string :=
  origin_go 2 base +:+ url.

(** A page without any manifest URL. *)
Definition script0 : string := "var x=1".
Definition page0 : string :=
  "<script>" +:+ script0 +:+ "</script>"
  +:+ "<a href=" +:+ q +:+ "/video/b.mpd" +:+ q +:+ ">b</a>".
Definition tags0 (html : string) : list (option string) := [Some script0].

(** A page with three manifest URLs and no script block. *)
Definition page3 : string :=
  "<video src=" +:+ q +:+ "https://cdn.example.com/1.m3u8" +:+ q +:+ ">"
  +:+ "<video src=" +:+ q +:+ "https://cdn.example.com/2.mpd" +:+ q +:+ ">"
  +:+ "<video src=" +:+ q +:+ "https://cdn.example.com/3.m3u8?t=9" +:+ q
  +:+ ">".
Definition no_tags (html : string) : list (option string) := [].

(** A dashboard with two links: one whose query string alone names a
    course, one written relative to the page. *)
Definition dashboard1 : string :=
  "<a href=" +:+ q +:+ "https://site.example/home?next=/course/5" +:+ q
  +:+ ">home</a>"
  +:+ "<a href=" +:+ q +:+ "lessons/learn/intro" +:+ q +:+ ">intro</a>".
Definition hrefs1 (html : string) : list string :=
  ["https://site.example/home?next=/course/5"; "lessons/learn/intro"].

(** A dashboard whose two links differ only after the question mark. *)
Definition dashboard2 : string :=
  "<a href=" +:+ q +:+ "https://site.example/course/7?ref=a" +:+ q +:+ ">"
  +:+ "<a href=" +:+ q +:+ "https://site.example/course/7?ref=b" +:+ q
  +:+ ">".
Definition hrefs2 (html : string) : list string :=
  ["https://site.example/course/7?ref=a";
   "https://site.example/course/7?ref=b"].

Definition self1 : downloader :=
  Downloader (Session ∅ []) None None ∅ "out".

(** A session that answers every request with the given page. *)
Definition serve (page : string) (s : session) (url : string)
  : result response :=
  Ok (Response 200 page).
(** A session whose every request is answered with status 404. *)
Definition serve_404 (s : session) (url : string) : result response :=
  Ok (Response 404 "").
(** A session that cannot connect. *)
Definition unreachable (s : session) (url : string) : result response :=
  Raise (ConnectionError "connection refused").

(** A [raise_for_status] that raises outside the 2xx range. *)
Definition strict_status (resp : response) : option exn :=
  if bool_decide (200 ≤ status_code resp < 300)%Z then None
  else Some (HTTPError (status_code resp)).

Definition makedirs_ok (path : string) : option exn := None.

(** A tool that fails on one URL only. *)
Definition failing_on (bad : string)
  : option (ydl_opts → result (list string → option exn)) :=
  Some (λ opts, Ok (λ urls,
    if bool_decide (urls = [bad])
    then Some (DownloadError "HTTP Error 403: Forbidden")
    else None)).

Definition url3 : string := "https://site.example/course/3".
Definition manifests3 : list string :=
  ["https://cdn.example.com/3.m3u8?t=9"; "https://cdn.example.com/1.m3u8";
   "https://cdn.example.com/2.mpd"].
(** The run over [page3] in which the tool fails on the second manifest
    of the enumeration only. *)
Definition run3 : M unit :=
  download_course makedirs_ok (serve page3) strict_status no_tags urljoin1
    (failing_on "https://cdn.example.com/1.m3u8") self1 url3.

(** Cookie file lines with six and with seven fields. *)
Definition t : string := String Cookies.tab "".
Definition line6 : string :=
  ".site.example" +:+ t +:+ "TRUE" +:+ t +:+ "/" +:+ t +:+ "FALSE"
  +:+ t +:+ "0" +:+ t +:+ "sid".
Definition line7 : string := line6 +:+ t +:+ "abc123".

End Sample.

(** ** The command line: the [__main__] block *)

Module CLI.

(** What [parser.parse_args()] returns. *)
Record args := Args {
  course_url : option string;
  bearer : option string;
  out : option string;
  list_enrolled : bool;
  download_enrolled : bool
}.

(** What the block does to the outside: the effects of the methods it
    calls, and what it prints. *)
Inductive output :=
  | Effect (ev : event)
  | Print (line : string)
  | PrintHelp.

Definition Cli (A : Type) : Type := list output * result A.

Global Instance Cli_ret : MRet Cli := λ A a, ([], Ok a).
Global Instance Cli_bind : MBind Cli := λ A B f m,
  match m with
  | (t, Ok a) => let '(t', r) := f a in (t ++ t', r)
  | (t, Raise e) => (t, Raise e)
  end.

(** A method call inside the block. *)
Definition lift {A} (m : M A) : Cli A := (Effect <$> m.1, m.2).

Definition print (line : string) : Cli unit := ([Print line], Ok ()).
Definition print_help : Cli unit := ([PrintHelp], Ok ()).

(** [for x in xs: body x] *)
Fixpoint for_each_cli {A} (xs : list A) (body : A → Cli unit) : Cli unit :=
  match xs with
  | [] => mret ()
  | x :: xs' => body x ;; for_each_cli xs' body
  end.

Definition newline : string := String Cookies.LF "".

Section Main.

Variable getcwd : string.
Variable makedirs_error : string → option exn.
Variable path_exists : string → bool.
Variable read_text : string → result string.
Variable default_headers : gmap string string.
Variable session_get : session → string → result response.
Variable http_error : response → option exn.
Variable script_tags : string → list (option string).
Variable anchor_hrefs : string → list string.
Variable urljoin : string → string → string.
Variable yt_dlp : option (ydl_opts → result (list string → option exn)).

(** [CareerwillDownloader(bearer_token=args.bearer,
    cookies_file='cookies.txt' if not args.bearer else None,
    output_dir=(args.out or None))] *)
Definition construct (a : args) : M downloader :=
  init getcwd makedirs_error path_exists read_text default_headers
    (bearer a)
    (if truthy (bearer a) then None else Some "cookies.txt")
    None
    (if truthy (out a) then out a else None).

(** The body of [for course in courses]. *)
Definition batch_step (dl : downloader) (course : string) : Cli unit :=
  print (newline +:+ "=== Downloading course: " +:+ course +:+ " ===") ;;
  lift (download_course makedirs_error session_get http_error script_tags
          urljoin yt_dlp dl course).

Definition main (a : args) : Cli unit :=
  dl ← lift (construct a);
  if list_enrolled a || download_enrolled a then
    courses ← lift (get_enrolled_courses session_get http_error
                      anchor_hrefs urljoin dl None);
    (if list_enrolled a then print (String.concat newline courses)
     else mret ()) ;;
    (if download_enrolled a then for_each_cli courses (batch_step dl)
     else mret ())
  else if truthy (course_url a) then
    lift (download_course makedirs_error session_get http_error script_tags
            urljoin yt_dlp dl (default EmptyString (course_url a)))
  else print_help.

End Main.

(** The requests and the files read, off a trace. *)
Definition requests (t : list output) : list string :=
  omap (λ o, match o with Effect (Get url) => Some url | _ => None end) t.
Definition files_read (t : list output) : list string :=
  omap (λ o, match o with Effect (ReadFile f) => Some f | _ => None end) t.

End CLI.

(** ** Further vocabulary *)

Module Spec2.
Import Str Pattern.

Definition has_char (c : ascii) (s : string) : Prop :=
  c ∈ String.list_ascii_of_string s.

(** The text of a file whose lines are [ls], each ended by a line
    feed. *)
Definition unlines (ls : list string) : string :=
  foldr (λ l rest, l +:+ String Cookies.LF rest) EmptyString ls.

(** A line holds no line boundary. *)
Definition one_line (l : string) : Prop :=
  ∀ c, has_char c l → Cookies.is_linebreak c = false.

(** A field of a line of the file holds no tab and no line boundary. *)
Definition clean_field (f : string) : Prop :=
  ∀ c, has_char c f → c ≠ Cookies.tab ∧ Cookies.is_linebreak c = false.

(** The options the tool is built with for the directory [dir]. *)
Definition attempt_opts (dir : string) : ydl_opts :=
  YdlOpts (Path.join dir "%(title)s.%(ext)s") true true false.

(** The directories made, off a trace. *)
Definition made_dirs (t : list event) : list string :=
  omap (λ ev, match ev with MakeDirs p => Some p | _ => None end) t.

End Spec2.

(** ** More sample inputs *)

Module Sample2.
Import Sample CLI.

(** A file system where only [out/manifest_2] cannot be made. *)
Definition makedirs_fail_2 (path : string) : option exn :=
  if bool_decide (path = "out/manifest_2")
  then Some (OSError "permission denied") else None.

(** A file system where nothing can be made. *)
Definition makedirs_denied (path : string) : option exn :=
  Some (OSError "permission denied").

Definition no_file (path : string) : bool := false.
Definition only_cookies_txt (path : string) : bool :=
  bool_decide (path = "cookies.txt").
Definition unreadable_file (path : string) : result string :=
  Raise (UnicodeDecodeError "invalid start byte").

(** The object built from the bearer token [tok]. *)
Definition tok_dl : downloader :=
  Downloader (Session (<["Authorization" := "Bearer tok"]> ∅) [])
    (Some "tok") (Some "cookies.txt") ∅ "out".

(** The object built from no credential at all. *)
Definition plain_dl : downloader :=
  Downloader (Session ∅ []) None (Some "cookies.txt") ∅ "out".

Definition args_help : args := Args None None (Some "out") false false.
Definition args_list : args :=
  Args (Some "https://site.example/course/9") None (Some "out") true false.
Definition args_batch : args := Args None None (Some "out") false true.

(** A site whose dashboard answers and whose course pages are gone. *)
Definition serve_dashboard_only (s : session) (url : string)
  : result response :=
  if bool_decide (url = "https://web.careerwill.com/")
  then Ok (Response 200 "")
  else Ok (Response 404 "").
Definition hrefs3 (html : string) : list string :=
  ["https://site.example/course/1"; "https://site.example/course/2"].

(** [raise_for_status] as the HTTP library has it: an error for the
    statuses 400 to 599, nothing for any other. *)
Definition requests_status (resp : response) : option exn :=
  if bool_decide (400 ≤ status_code resp < 600)%Z
  then Some (HTTPError (status_code resp)) else None.

(** A session whose every request is answered with status 304 and the
    given page. *)
Definition serve_304 (page : string) (s : session) (url : string)
  : result response :=
  Ok (Response 304 page).

(** A tool that never fails. *)
Definition tool_ok
  : option (ydl_opts → result (list string → option exn)) :=
  Some (λ opts, Ok (λ urls, None)).

(** What stands before and after the call head on line 74. *)
Definition indent_74 : string := "            for m in ".
Definition rest_74 : string :=
  "+?" +:+ Tokenizer.bs +:+ ".(?:m3u8|mpd)(?:" +:+ Tokenizer.bs +:+ "?[^"
  +:+ Tokenizer.bs +:+ Tokenizer.q +:+ "']*)?)" +:+ Tokenizer.q
  +:+ ", script.string):".

(** A cookie file: a comment, a line of six fields, a blank line and a
    line of seven fields. *)
Definition cookie_lines : list string :=
  ["# Netscape HTTP Cookie File"; line6; ""; line7].
Definition cookie_file : string := Spec2.unlines cookie_lines.
Definition read_cookie_file (path : string) : result string :=
  Ok cookie_file.

End Sample2.

(** * Properties *)

Set Warnings "-clear-no-such-hyp".
Set Default Proof Using "Type".

#[local] Arguments String.append !_ _ / : simpl nomatch.

(** ** Strings *)

Section StringFacts.
Import Str.

Lemma str_app_assoc (a b c : string) : (a +:+ b) +:+ c = a +:+ b +:+ c.
Proof. induction a as [|x a IH]; simpl; [done|by rewrite IH]. Qed.

Lemma str_app_nil_r (a : string) : a +:+ "" = a.
Proof. induction a as [|x a IH]; simpl; [done|by rewrite IH]. Qed.

Lemma startswith_app (p r : string) : startswith p (p +:+ r) = true.
Proof.
  unfold startswith. induction p as [|x p IH]; simpl.
  - by destruct r.
  - destruct (ascii_dec x x); [done|congruence].
Qed.

Lemma startswith_inv (p s : string) :
  startswith p s = true → ∃ r, s = p +:+ r.
Proof.
  unfold startswith. revert s. induction p as [|x p IH]; intros s H.
  - by exists s.
  - destruct s as [|y s]; simpl in H; [done|].
    destruct (ascii_dec x y) as [->|]; [|done].
    destruct (IH _ H) as [r ->]. by exists r.
Qed.

Lemma startswith_nil (s : string) : startswith "" s = true.
Proof. by destruct s. Qed.

Lemma startswith_head (c : ascii) (s : string) :
  startswith (String c "") (String c s) = true.
Proof. apply (startswith_app (String c "") s). Qed.

Lemma drop_app (p r : string) : drop (String.length p) (p +:+ r) = r.
Proof. induction p as [|x p IH]; simpl; [by destruct r|done]. Qed.

Lemma substring_of_refl (s : string) : substring_of s s.
Proof. exists "", "". simpl. by rewrite str_app_nil_r. Qed.

Lemma substring_of_trans (a b c : string) :
  substring_of a b → substring_of b c → substring_of a c.
Proof.
  intros (p1 & q1 & ->) (p2 & q2 & ->).
  exists (p2 +:+ p1), (q1 +:+ q2). by rewrite !str_app_assoc.
Qed.


End StringFacts.

(** ** The pattern matcher against the pattern's language *)

Section PatternFacts.
Import Str Pattern Spec.

Lemma query_run_spec (s : string) :
  no_quote (query_run s) ∧ ∃ rest, s = query_run s +:+ rest.
Proof.
  induction s as [|c s [IH1 [rest IH2]]]; simpl.
  - split; [constructor|by exists ""].
  - destruct (is_quote c) eqn:Hc.
    + split; [constructor|by eexists].
    + split.
      * constructor; [|done]. unfold is_quote in Hc.
        apply orb_false_iff in Hc as [H1 H2].
        apply Ascii.eqb_neq in H1, H2. done.
      * exists rest. simpl. by rewrite <- IH2.
Qed.

Lemma opt_query_spec (s : string) :
  (opt_query s = "" ∨ ∃ q, opt_query s = String "?"%char q ∧ no_quote q) ∧
  ∃ rest, s = opt_query s +:+ rest.
Proof.
  destruct s as [|c s]; [split; [by left|by exists ""]|].
  destruct (decide (c = "?"%char)) as [->|Hc].
  - simpl. destruct (query_run_spec s) as [H1 [rest H2]]. split.
    + right. by eexists.
    + exists rest. simpl. by rewrite <- H2.
  - assert (opt_query (String c s) = "") as ->.
    { destruct c as [[] [] [] [] [] [] [] []]; try done. }
    split; [by left|by eexists].
Qed.

Lemma ext_at_spec (s e : string) :
  ext_at s = Some e →
  (e = ".m3u8" ∨ e = ".mpd") ∧ ∃ rest, s = e +:+ rest.
Proof.
  unfold ext_at. intros H.
  destruct (startswith ".m3u8" s) eqn:H1.
  - injection H as <-. split; [by left|by apply startswith_inv].
  - destruct (startswith ".mpd" s) eqn:H2; [|done].
    injection H as <-. split; [by right|by apply startswith_inv].
Qed.

Lemma tail_at_spec (s t : string) :
  tail_at s = Some t → tail_shape t ∧ ∃ rest, s = t +:+ rest.
Proof.
  unfold tail_at. destruct (ext_at s) as [e|] eqn:He; [|done].
  intros [= <-]. apply ext_at_spec in He as [He [r ->]].
  rewrite drop_app. destruct (opt_query_spec r) as [Hq [rest Hr]].
  split.
  - by exists e, (opt_query r).
  - exists rest. by rewrite str_app_assoc, <- Hr.
Qed.

Lemma body_more_spec (s m : string) :
  body_more s = Some m →
  ∃ body t rest, m = body +:+ t ∧ no_dquote body ∧ tail_shape t ∧
                 s = m +:+ rest.
Proof.
  revert m. induction s as [|c s IH]; intros m; cbn [body_more].
  - by vm_compute.
  - destruct (tail_at (String c s)) as [t|] eqn:Ht.
    + intros [= <-]. apply tail_at_spec in Ht as [Ht [rest Hr]].
      exists "", t, rest. split_and!; [done|constructor|done..].
    + destruct (is_dquote c) eqn:Hc; [done|].
      destruct (body_more s) as [m'|] eqn:Hm; [|done].
      intros [= <-].
      destruct (IH _ eq_refl) as (body & t & rest & -> & Hb & Ht' & ->).
      exists (String c body), t, rest. split_and!; try done.
      constructor; [|done]. by apply Ascii.eqb_neq.
Qed.

Lemma body_at_spec (s m : string) :
  body_at s = Some m →
  ∃ body t rest, m = body +:+ t ∧ body ≠ "" ∧ no_dquote body ∧
                 tail_shape t ∧ s = m +:+ rest.
Proof.
  destruct s as [|c s]; simpl; [done|].
  destruct (is_dquote c) eqn:Hc; [done|].
  destruct (body_more s) as [m'|] eqn:Hm; [|done].
  intros [= <-].
  destruct (body_more_spec _ _ Hm) as (body & t & rest & -> & Hb & Ht & ->).
  exists (String c body), t, rest. split_and!; try done.
  constructor; [|done]. by apply Ascii.eqb_neq.
Qed.

(** Soundness: a match is a prefix of the text, in the pattern's
    language, and carries one of the two scheme prefixes. *)
Lemma match_at_spec (s m : string) :
  match_at s = Some m →
  manifest_pattern m ∧ (∃ rest, s = m +:+ rest) ∧
  (startswith "http://" m = true ∨ startswith "https://" m = true).
Proof.
  unfold match_at.
  destruct (startswith "https://" s) eqn:H1.
  - apply startswith_inv in H1 as [r ->]. rewrite (drop_app "https://").
    destruct (body_at r) as [b|] eqn:Hb; [|done]. intros [= <-].
    destruct (body_at_spec _ _ Hb)
      as (body & t & rest & -> & Hne & Hnd & (e & q & -> & He & Hq) & ->).
    split; [|split].
    + by apply (manifest_pattern_intro "https://" body e q); [right|..].
    + by exists rest.
    + right. apply (startswith_app "https://").
  - destruct (startswith "http://" s) eqn:H2; [|done].
    apply startswith_inv in H2 as [r ->]. rewrite (drop_app "http://").
    destruct (body_at r) as [b|] eqn:Hb; [|done]. intros [= <-].
    destruct (body_at_spec _ _ Hb)
      as (body & t & rest & -> & Hne & Hnd & (e & q & -> & He & Hq) & ->).
    split; [|split].
    + by apply (manifest_pattern_intro "http://" body e q); [left|..].
    + by exists rest.
    + left. apply (startswith_app "http://").
Qed.

Lemma startswith_m3u8_mpd (rest : string) :
  startswith ".m3u8" (".mpd" +:+ rest) = false.
Proof.
  destruct (startswith _ _) eqn:E; [|done].
  apply (startswith_inv ".m3u8") in E as [r E]. by simplify_eq/=.
Qed.

Lemma startswith_https_http (rest : string) :
  startswith "https://" ("http://" +:+ rest) = false.
Proof.
  destruct (startswith _ _) eqn:E; [|done].
  apply (startswith_inv "https://") in E as [r E]. by simplify_eq/=.
Qed.

Lemma tail_at_ext (ext rest : string) :
  ext = ".m3u8" ∨ ext = ".mpd" → is_Some (tail_at (ext +:+ rest)).
Proof.
  intros [-> | ->]; unfold tail_at, ext_at.
  - rewrite (startswith_app ".m3u8"). by eexists.
  - rewrite startswith_m3u8_mpd, (startswith_app ".mpd"). by eexists.
Qed.

Lemma body_more_unfold (s : string) :
  body_more s =
  match tail_at s with
  | Some t => Some t
  | None =>
      match s with
      | EmptyString => None
      | String c s' =>
          if is_dquote c then None else String c <$> body_more s'
      end
  end.
Proof. by destruct s. Qed.

Lemma body_more_complete (body ext rest : string) :
  no_dquote body → ext = ".m3u8" ∨ ext = ".mpd" →
  is_Some (body_more (body +:+ ext +:+ rest)).
Proof.
  intros Hb He. induction body as [|c body IH].
  - destruct (tail_at_ext ext rest He) as [t Ht].
    rewrite body_more_unfold. change ("" +:+ ext +:+ rest) with (ext +:+ rest).
    rewrite Ht. by eexists.
  - rewrite body_more_unfold.
    destruct (tail_at _); [by eexists|].
    inversion Hb as [|? ? Hc Hb']; subst.
    apply Ascii.eqb_neq in Hc. unfold is_dquote. simpl. rewrite Hc.
    destruct (IH Hb') as [m ->]. by eexists.
Qed.

(** Completeness: wherever a word of the language starts, the matcher
    finds a match (the lazy run may end it earlier). *)
Lemma match_at_complete (w post : string) :
  manifest_pattern w → is_Some (match_at (w +:+ post)).
Proof.
  intros [scheme body ext query Hs Hne Hnd He _].
  destruct body as [|c body]; [done|].
  inversion Hnd as [|? ? Hc Hb']; subst.
  apply Ascii.eqb_neq in Hc.
  destruct (body_more_complete body ext (query +:+ post) Hb' He) as [m Hm].
  rewrite !str_app_assoc.
  destruct Hs as [-> | ->]; unfold match_at.
  - rewrite startswith_https_http, (startswith_app "http://"),
      (drop_app "http://").
    simpl. unfold is_dquote. rewrite Hc, Hm. by eexists.
  - rewrite (startswith_app "https://"), (drop_app "https://").
    simpl. unfold is_dquote. rewrite Hc, Hm. by eexists.
Qed.

End PatternFacts.

(** ** [re.findall] *)

Section FindallFacts.
Import Str Pattern Spec.

Lemma findall_from_unfold (k : nat) (c : ascii) (s : string) :
  findall_from k (String c s) =
  match k with
  | S k' => findall_from k' s
  | O =>
      match match_at (String c s) with
      | Some m => m :: findall_from (String.length m - 1) s
      | None => findall_from 0 s
      end
  end.
Proof. done. Qed.

Lemma findall_from_drop (k : nat) (s : string) :
  findall_from k s = findall (drop k s).
Proof.
  revert k. induction s as [|c s IH]; intros [|k]; try done.
  rewrite findall_from_unfold. apply IH.
Qed.

(** The scan as [re.findall] proceeds: a match is reported and the scan
    resumes at its end; without a match it resumes one character on. *)
Lemma findall_equation (s : string) :
  findall s =
  match match_at s with
  | Some m => m :: findall (drop (String.length m) s)
  | None =>
      match s with
      | EmptyString => []
      | String _ s' => findall s'
      end
  end.
Proof.
  destruct s as [|c s]; [done|].
  unfold findall at 1. rewrite findall_from_unfold.
  destruct (match_at (String c s)) as [m|] eqn:Hm; [|done].
  apply match_at_spec in Hm as (_ & _ & Hm).
  destruct m as [|c' m]; [by destruct Hm|].
  simpl. by rewrite Nat.sub_0_r, findall_from_drop.
Qed.

Lemma findall_from_elem (k : nat) (s x : string) :
  x ∈ findall_from k s →
  ∃ pre t, s = pre +:+ t ∧ match_at t = Some x.
Proof.
  revert k. induction s as [|c s IH]; intros k.
  - by intros ?%elem_of_nil.
  - rewrite findall_from_unfold. destruct k as [|k].
    + destruct (match_at (String c s)) as [m|] eqn:Hm.
      * intros [->|Hx]%elem_of_cons.
        -- by exists "", (String c s).
        -- destruct (IH _ Hx) as (pre & t & -> & Ht).
           by exists (String c pre), t.
      * intros Hx. destruct (IH _ Hx) as (pre & t & -> & Ht).
        by exists (String c pre), t.
    + intros Hx. destruct (IH _ Hx) as (pre & t & -> & Ht).
      by exists (String c pre), t.
Qed.

Lemma findall_from_nil (k : nat) (s : string) :
  (∀ pre t, s = pre +:+ t → match_at t = None) → findall_from k s = [].
Proof.
  revert k. induction s as [|c s IH]; intros k H; [done|].
  rewrite findall_from_unfold.
  assert (∀ k', findall_from k' s = []) as Hs.
  { intros k'. apply IH. intros pre t ->. by apply (H (String c pre)). }
  destruct k; [|done]. by rewrite (H "" (String c s)).
Qed.

Lemma findall_nil_suffixes (s : string) :
  findall s = [] → ∀ pre t, s = pre +:+ t → match_at t = None.
Proof.
  unfold findall. induction s as [|c s IH]; intros H pre t E.
  - destruct pre; [|done]. simpl in E. by subst.
  - rewrite findall_from_unfold in H.
    destruct (match_at (String c s)) as [m|] eqn:Hm; [done|].
    destruct pre as [|c' pre]; simpl in E.
    + by subst.
    + injection E as <- ->. by eapply IH.
Qed.

(** A text yields no match exactly when no word of the pattern's
    language occurs in it. *)
Lemma findall_nil_iff (s : string) : findall s = [] ↔ no_match s.
Proof.
  split.
  - intros H w (pre & post & ->) Hw.
    destruct (match_at_complete w post Hw) as [m Hm].
    by rewrite (findall_nil_suffixes _ H pre (w +:+ post)) in Hm.
  - intros H. apply findall_from_nil. intros pre t -> .
    destruct (match_at t) as [m|] eqn:Hm; [|done].
    destruct (match_at_spec _ _ Hm) as (Hp & [rest ->] & _).
    destruct (H m); [by exists pre, rest|done].
Qed.

Lemma findall_scheme (s x : string) :
  x ∈ findall s →
  startswith "http://" x = true ∨ startswith "https://" x = true.
Proof.
  intros (pre & t & -> & Hm)%findall_from_elem.
  by apply match_at_spec in Hm as (_ & _ & ?).
Qed.

Lemma scheme_not_root (x : string) :
  startswith "http://" x = true ∨ startswith "https://" x = true →
  startswith "/" x = false.
Proof.
  by intros [[r ->]%(startswith_inv "http://")
            |[r ->]%(startswith_inv "https://")].
Qed.

Lemma contains_unfold (p s : string) :
  contains p s =
  startswith p s ||
  match s with
  | EmptyString => false
  | String _ s' => contains p s'
  end.
Proof. by destruct s. Qed.

End FindallFacts.

(** ** The extractor *)

Section ScanFacts.
Import Str Pattern Spec.

Lemma elem_of_add_all (xs : list string) (acc : gset string) (x : string) :
  x ∈ add_all xs acc ↔ x ∈ xs ∨ x ∈ acc.
Proof.
  unfold add_all. revert acc.
  induction xs as [|y xs IH]; intros acc; simpl.
  - set_solver.
  - rewrite IH. set_solver.
Qed.

Lemma elem_of_scan_script (acc : gset string) (o : option string)
    (x : string) :
  x ∈ scan_script acc o ↔
  x ∈ acc ∨ ∃ str, o = Some str ∧ str ≠ "" ∧ x ∈ findall str.
Proof.
  destruct o as [[|c str]|]; simpl.
  - naive_solver.
  - rewrite elem_of_add_all. naive_solver.
  - naive_solver.
Qed.

Lemma elem_of_scan_scripts (tags : list (option string))
    (acc : gset string) (x : string) :
  x ∈ foldl scan_script acc tags ↔
  x ∈ acc ∨ ∃ str, Some str ∈ tags ∧ str ≠ "" ∧ x ∈ findall str.
Proof.
  revert acc. induction tags as [|o tags IH]; intros acc; simpl.
  - split; [by left|]. intros [?|(str & ?%elem_of_nil & _)]; done.
  - rewrite IH, elem_of_scan_script. split.
    + intros [[?|(str & Ho & ? & ?)]|(str & ? & ? & ?)].
      * by left.
      * right. exists str. subst o. split_and!; [left|done..].
      * right. exists str. split_and!; [by right|done..].
    + intros [?|(str & [<-|?]%elem_of_cons & ? & ?)].
      * by left; left.
      * left; right. by exists str.
      * right. by exists str.
Qed.

End ScanFacts.

Section ExtractorFacts.
Import Str Pattern Spec.

Variable script_tags : string → list (option string).
Variable urljoin : string → string → string.

(** What the two scans collect. *)
Lemma elem_of_candidates (html x : string) :
  x ∈ candidates script_tags html ↔
  x ∈ findall html ∨
  ∃ str, Some str ∈ script_tags html ∧ str ≠ "" ∧ x ∈ findall str.
Proof.
  unfold candidates. rewrite elem_of_scan_scripts, elem_of_add_all.
  clear urljoin. set_solver.
Qed.

Lemma candidates_scheme (html x : string) :
  x ∈ candidates script_tags html →
  startswith "http://" x = true ∨ startswith "https://" x = true.
Proof.
  intros [?|(str & _ & _ & ?)]%elem_of_candidates;
    by eapply findall_scheme.
Qed.

Lemma normalize_noop (base_url : string) (l : list string)
    (acc : gset string) :
  (∀ u, u ∈ l → startswith "/" u = false) →
  foldl (normalize_step urljoin base_url) acc l = list_to_set l ∪ acc.
Proof.
  clear script_tags.
  revert acc. induction l as [|u l IH]; intros acc H; simpl.
  - set_solver.
  - rewrite IH by (intros; apply H; by right).
    unfold normalize_step. rewrite (H u) by left. set_solver.
Qed.

(** The normalising loop changes nothing. *)
Lemma discover_is_candidates (html base_url : string) :
  discover_manifest_urls script_tags urljoin html base_url =
  elements (candidates script_tags html).
Proof.
  unfold discover_manifest_urls. rewrite normalize_noop.
  - by rewrite (right_id_L ∅ (∪)), list_to_set_elements_L.
  - intros u Hu%elem_of_elements.
    by apply scheme_not_root, (candidates_scheme html).
Qed.

End ExtractorFacts.


(** ** Course links *)

Section LinkFacts.
Import Str.

Lemma split_nonempty (sep : ascii) (s : string) : split sep s ≠ [].
Proof.
  induction s as [|c s IH]; simpl; [done|].
  destruct (Ascii.eqb c sep); [done|]. by destruct (split sep s).
Qed.

Lemma strip_query_cons (c : ascii) (h : string) :
  strip_query (String c h) =
  if Ascii.eqb c "?"%char then "" else String c (strip_query h).
Proof.
  unfold strip_query. simpl. destruct (Ascii.eqb c "?"); [done|].
  pose proof (split_nonempty "?" h). by destruct (split "?" h).
Qed.

(** What [href.split('?')[0]] returns holds no question mark. *)
Lemma strip_query_no_qmark (h : string) :
  contains "?" (strip_query h) = false.
Proof.
  induction h as [|c h IH]; [done|].
  rewrite strip_query_cons. destruct (Ascii.eqb c "?") eqn:Hc; [done|].
  rewrite contains_unfold, IH, orb_false_r.
  apply Ascii.eqb_neq in Hc.
  destruct (startswith _ _) eqn:E; [|done].
  apply (startswith_inv "?") in E as [r E]. by simplify_eq/=.
Qed.


Lemma strip_query_id (p : string) :
  contains "?" p = false → strip_query p = p.
Proof.
  induction p as [|c p IH]; intros Hp; [done|].
  rewrite contains_unfold in Hp. apply orb_false_iff in Hp as [Hc Hp].
  rewrite strip_query_cons, (IH Hp).
  destruct (Ascii.eqb c "?") eqn:E; [|done].
  apply Ascii.eqb_eq in E as ->.
  by rewrite startswith_head in Hc.
Qed.



Lemma elem_of_link_fold (urljoin : string → string → string)
    (d : string) (hrefs : list string) (acc : gset string) (u : string) :
  u ∈ foldl (link_step urljoin d) acc hrefs ↔
  u ∈ acc ∨
  ∃ h, h ∈ hrefs ∧ qualifies (normalize_href urljoin d h) = true ∧
       u = strip_query (normalize_href urljoin d h).
Proof.
  revert acc. induction hrefs as [|h hrefs IH]; intros acc; simpl.
  - split; [by left|]. by intros [?|(h & ?%elem_of_nil & _)].
  - rewrite IH. unfold link_step at 1.
    destruct (qualifies (normalize_href urljoin d h)) eqn:Hq.
    + rewrite elem_of_union, elem_of_singleton. split.
      * intros [[->|?]|(h' & ? & ? & ?)].
        -- right. exists h. split_and!; [left|done..].
        -- by left.
        -- right. exists h'. split_and!; [by right|done..].
      * intros [?|(h' & [->|?]%elem_of_cons & ? & ?)].
        -- left; by right.
        -- left; by left.
        -- right. by exists h'.
    + split.
      * intros [?|(h' & ? & ? & ?)]; [by left|].
        right. exists h'. split_and!; [by right|done..].
      * intros [?|(h' & [->|?]%elem_of_cons & ? & ?)].
        -- by left.
        -- congruence.
        -- right. by exists h'.
Qed.

(** The candidate set: the stripped targets of the qualifying links. *)
Lemma elem_of_course_candidates (urljoin : string → string → string)
    (d : string) (hrefs : list string) (u : string) :
  u ∈ course_candidates urljoin d hrefs ↔
  ∃ h, h ∈ hrefs ∧ qualifies (normalize_href urljoin d h) = true ∧
       u = strip_query (normalize_href urljoin d h).
Proof.
  unfold course_candidates. rewrite elem_of_link_fold.
  split; [|by right]. by intros [?%not_elem_of_empty|?].
Qed.


Lemma sorted_perm (xs : gset string) : sorted xs ≡ₚ elements xs.
Proof. apply merge_sort_Permutation. Qed.

Lemma elem_of_sorted (xs : gset string) (u : string) :
  u ∈ sorted xs ↔ u ∈ xs.
Proof. by rewrite sorted_perm, elem_of_elements. Qed.




End LinkFacts.

(** ** Runs of the methods *)

Section RunFacts.

Variable makedirs_error : string → option exn.
Variable session_get : session → string → result response.
Variable http_error : response → option exn.
Variable script_tags : string → list (option string).
Variable anchor_hrefs : string → list string.
Variable urljoin : string → string → string.
Variable yt_dlp : option (ydl_opts → result (list string → option exn)).
Variable self : downloader.

Local Abbreviation fetch_fails' :=
  (fetch_fails session_get http_error self).
Local Abbreviation fetch_gives' :=
  (fetch_gives session_get http_error self).
Local Abbreviation fetch_course_page' :=
  (fetch_course_page session_get http_error self).
Local Abbreviation download_step' :=
  (download_step makedirs_error yt_dlp self).
Local Abbreviation get_enrolled_courses' :=
  (get_enrolled_courses session_get http_error anchor_hrefs urljoin self).

Lemma fetch_cases (url : string) :
  (∃ e, fetch_fails' url e) ∨ (∃ resp, fetch_gives' url resp).
Proof.
  unfold fetch_fails, fetch_gives.
  destruct (session_get (dl_session self) url) as [resp|e] eqn:E.
  - destruct (http_error resp) as [e|] eqn:E'; [left|right]; eauto.
  - left. eauto.
Qed.

Lemma fetch_course_page_ok (url : string) (resp : response) :
  fetch_gives' url resp → fetch_course_page' url = ([Get url], Ok (text resp)).
Proof.
  intros [H1 H2]. unfold fetch_course_page, get, raise_for_status.
  rewrite H1. simpl. by rewrite H2.
Qed.

Lemma fetch_course_page_fails (url : string) (e : exn) :
  fetch_fails' url e → fetch_course_page' url = ([Get url], Raise e).
Proof.
  unfold fetch_course_page, get, raise_for_status.
  intros [H|(resp & H1 & H2)];
    [by rewrite H|rewrite H1; simpl; by rewrite H2].
Qed.

Lemma for_each_ok {A} (xs : list A) (body : A → M unit)
    (f : A → list event) :
  (∀ x, x ∈ xs → body x = (f x, Ok ())) →
  for_each xs body = (flat_map f xs, Ok ()).
Proof.
  induction xs as [|x xs IH]; intros H; [done|].
  simpl. rewrite IH by (intros; apply H; by right).
  by rewrite (H x) by left.
Qed.

(** One iteration never raises once its directory is made. *)
Lemma download_step_isolated (i : nat) (m : string) :
  makedirs_error (out_subdir self i) = None →
  download_step' (i, m) = (isolated_attempt yt_dlp self (i, m), Ok ()).
Proof.
  intros H. unfold download_step, isolated_attempt, attempt.
  unfold os_makedirs. rewrite H. simpl.
  destruct (download_manifest_with_ytdlp _ _ _ _) as [t [[]|e]]; simpl.
  - by rewrite (right_id_L [] (++)).
  - done.
Qed.

(** The only exception the loop can end with is one of [os.makedirs]. *)
Lemma download_step_makedirs_raise (i : nat) (m : string) (e : exn) :
  makedirs_error (out_subdir self i) = Some e →
  download_step' (i, m) = ([MakeDirs (out_subdir self i)], Raise e).
Proof.
  intros H. unfold download_step, os_makedirs.
  by rewrite H.
Qed.

Lemma for_each_download_raise (start : nat) (ms : list string) (e : exn) :
  outcome (for_each (enumerate start ms) download_step') = Raise e →
  ∃ i m, (i, m) ∈ enumerate start ms ∧
         makedirs_error (out_subdir self i) = Some e.
Proof.
  revert start. induction ms as [|m ms IH]; intros start; [done|].
  cbn [enumerate for_each].
  destruct (makedirs_error (out_subdir self start)) as [e'|] eqn:E.
  - rewrite (download_step_makedirs_raise _ _ _ E). intros [= <-].
    exists start, m. split; [left|done].
  - rewrite download_step_isolated by done.
    destruct (for_each _ _) as [t r] eqn:E'. simpl. intros ->.
    destruct (IH (S start)) as (i & m' & ? & ?); [by rewrite E'|].
    exists i, m'. split; [by right|done].
Qed.

Lemma enrolled_courses_ok (d : option string) (resp : response) :
  let url := default "https://web.careerwill.com/" d in
  let results :=
    sorted (course_candidates urljoin url (anchor_hrefs (text resp))) in
  fetch_gives' url resp →
  get_enrolled_courses' d =
    ([Get url;
      Log INFO "Discovered %d enrolled course(s)"
        [AInt (length results)] None],
     Ok results).
Proof.
  intros url results [H1 H2].
  unfold get_enrolled_courses, get, raise_for_status.
  fold url. rewrite H1. simpl. by rewrite H2.
Qed.

Lemma enrolled_courses_fails (d : option string) (e : exn) :
  let url := default "https://web.careerwill.com/" d in
  fetch_fails' url e →
  get_enrolled_courses' d =
    ([Get url;
      Log ERROR "Failed to fetch dashboard URL: %s" [AStr url] (Some e)],
     Ok []).
Proof.
  intros url.
  unfold get_enrolled_courses, get, raise_for_status. fold url.
  intros [H|(resp & H1 & H2)];
    [by rewrite H|rewrite H1; simpl; by rewrite H2].
Qed.

End RunFacts.

(** ** The scans as the file has them *)

Section LiteralResults.
Import Str Tokenizer.

Lemma tokenize_app (opened : list ascii) (m : mode) (a b : string) :
  tokenize opened m (a +:+ b) =
  match tokenize opened m a with
  | Reads opened' m' => tokenize opened' m' b
  | SyntaxError e => SyntaxError e
  end.
Proof.
  revert opened m. induction a as [|c a IH]; intros opened m; simpl; [done|].
  by destruct (step opened m c).
Qed.

(** The tokenizer reads the line to its end, no bracket left open, once
    the double quote of the first class is escaped; the literal is then
    the whole pattern. *)
Lemma escaped_scan_accepted :
  check_line escaped_line_66 = Reads [] Code ∧
  literal dquote escaped_pattern_text =
    Some ("(https?://[^" +:+ bs +:+ q +:+ "]+?" +:+ bs
          +:+ ".(?:m3u8|mpd)(?:" +:+ bs +:+ "?[^" +:+ bs +:+ q
          +:+ "']*)?)", "").
Proof. split; vm_compute; reflexivity. Qed.

(** C1.  Line 66, the scan of the page text that [discover_manifest_urls]
    starts with, is not Python, and neither is line 74, the scan of a
    script text: the tokenizer rejects each at the closing square
    bracket that follows the cut literal, the parenthesis of the call
    being the innermost open bracket.  The module that holds the method
    cannot be loaded, so the method returns nothing on the sample page,
    nor on any other. *)
Theorem page_scan_rejected :
  check_line line_66 = SyntaxError (Mismatch "]" "(") ∧
  check_line line_74 = SyntaxError (Mismatch "]" "(").
Proof. split; vm_compute; reflexivity. Qed.

(** C9.  Wherever the call [re.findall] with this literal stands in code
    (after any text that leaves the tokenizer in code, whatever brackets
    are open there) and whatever follows the closing square bracket of
    the first class, the line is rejected with a syntax error: on no
    page text does the extractor return without raising, for it cannot
    be loaded. *)
Theorem scan_call_rejected (pre rest : string) (opened : list ascii) :
  check_line pre = Reads opened Code →
  check_line (pre +:+ call_head +:+ rest) = SyntaxError (Mismatch "]" "(").
Proof.
  intros Hpre. unfold check_line in *.
  rewrite tokenize_app, Hpre, tokenize_app.
  assert (tokenize opened Code call_head = SyntaxError (Mismatch "]" "("))
    as ->; [|done].
  vm_compute. reflexivity.
Qed.


End LiteralResults.

(** ** The extractor under the evident reading of the pattern *)

Section ExtractorResults.
Import Str Pattern Spec.

Variable script_tags : string → list (option string).
Variable urljoin : string → string → string.

(** With the pattern of [Pattern], every returned URL begins with
    [http://] or [https://]; the test [url.startswith('/')] of the
    normalising loop is false for every candidate, so the loop returns
    the candidates as they are and the result depends neither on the
    base URL nor on [urljoin]. *)
Lemma discover_scheme_prefixed (html base_url : string) :
  (∀ u, u ∈ discover_manifest_urls script_tags urljoin html base_url →
        startswith "http://" u = true ∨ startswith "https://" u = true) ∧
  (∀ u, u ∈ elements (candidates script_tags html) →
        startswith "/" u = false) ∧
  discover_manifest_urls script_tags urljoin html base_url
    = elements (candidates script_tags html).
Proof.
  split_and!.
  - intros u. rewrite discover_is_candidates, elem_of_elements.
    apply candidates_scheme.
  - intros u Hu%elem_of_elements.
    by apply scheme_not_root, (candidates_scheme script_tags html).
  - apply discover_is_candidates.
Qed.

End ExtractorResults.

(** ** What the runs do *)

Section RunResults.
Import Str.

Variable makedirs_error : string → option exn.
Variable session_get : session → string → result response.
Variable http_error : response → option exn.
Variable script_tags : string → list (option string).
Variable anchor_hrefs : string → list string.
Variable urljoin : string → string → string.
Variable yt_dlp : option (ydl_opts → result (list string → option exn)).
Variable self : downloader.

Local Abbreviation fetch_fails' :=
  (fetch_fails session_get http_error self).
Local Abbreviation fetch_gives' :=
  (fetch_gives session_get http_error self).
Local Abbreviation download_step' :=
  (download_step makedirs_error yt_dlp self).
Local Abbreviation download_course' :=
  (download_course makedirs_error session_get http_error script_tags
     urljoin yt_dlp self).
Local Abbreviation get_enrolled_courses' :=
  (get_enrolled_courses session_get http_error anchor_hrefs urljoin self).
Local Abbreviation discover' := (discover_manifest_urls script_tags urljoin).

Lemma download_course_fetched (url : string) (resp : response) :
  fetch_gives' url resp →
  download_course' url =
    let manifests := discover' (text resp) url in
    let rest :=
      match manifests with
      | [] =>
          logger_warning
            "No manifest URLs found in page. The site may use an API or DRM-protected packaging."
            []
      | _ => for_each (enumerate 1 manifests) download_step'
      end in
    (Log INFO "Fetching course page: %s" [AStr url] None :: Get url ::
     Log INFO "Found %d manifest(s)" [AInt (length manifests)] None ::
     trace rest, outcome rest).
Proof.
  intros H. unfold download_course.
  rewrite (fetch_course_page_ok _ _ _ _ _ H). simpl.
  by destruct (match discover' (text resp) url with [] => _ | _ => _ end).
Qed.

(** C3, as amended.  Once the course page is fetched and manifests are
    found, and as long as each numbered directory can be made,
    [download_course] ends normally whatever the tool does: its trace
    is, after the fetch, one isolated attempt per manifest in
    enumeration order, and an attempt that raises (the tool raising an
    [Exception], or missing) leaves a failure record naming its manifest
    URL before the next attempt starts. *)
Theorem download_course_isolates (url : string) (resp : response)
    (ms : list string) :
  fetch_gives' url resp →
  discover' (text resp) url = ms → ms ≠ [] →
  (∀ i m, (i, m) ∈ enumerate 1 ms →
          makedirs_error (out_subdir self i) = None) →
  outcome (download_course' url) = Ok () ∧
  trace (download_course' url) =
    [Log INFO "Fetching course page: %s" [AStr url] None; Get url;
     Log INFO "Found %d manifest(s)" [AInt (length ms)] None]
    ++ flat_map (isolated_attempt yt_dlp self) (enumerate 1 ms) ∧
  (∀ i m, (i, m) ∈ enumerate 1 ms →
     MakeDirs (out_subdir self i) ∈ trace (download_course' url) ∧
     (∀ ev, ev ∈ trace (attempt yt_dlp self i m) →
            ev ∈ trace (download_course' url)) ∧
     (∀ e, outcome (attempt yt_dlp self i m) = Raise e →
           Log ERROR "Failed to download manifest: %s" [AStr m] (Some e)
             ∈ trace (download_course' url))) ∧
  (yt_dlp = None →
   ∀ i m, attempt yt_dlp self i m =
          ([], Raise (RuntimeError "yt_dlp not installed in environment"))).
Proof.
  intros Hfetch Hms Hne Hdirs.
  rewrite (download_course_fetched _ _ Hfetch), Hms. cbn zeta.
  assert (for_each (enumerate 1 ms) download_step' =
          (flat_map (isolated_attempt yt_dlp self) (enumerate 1 ms), Ok ()))
    as Hloop.
  { apply for_each_ok. intros [i m] Him.
    by rewrite download_step_isolated by eauto. }
  destruct ms as [|m0 ms']; [done|]. rewrite Hloop.
  split_and!; [done|done| |by intros ->].
  intros i m Him.
  assert (∀ ev, ev ∈ isolated_attempt yt_dlp self (i, m) →
                ev ∈ trace
                  (Log INFO "Fetching course page: %s" [AStr url] None
                   :: Get url
                   :: Log INFO "Found %d manifest(s)"
                        [AInt (length (m0 :: ms'))] None
                   :: flat_map (isolated_attempt yt_dlp self)
                        (enumerate 1 (m0 :: ms')), Ok ())) as Hin.
  { intros ev Hev. unfold trace. cbn [fst].
    do 3 (apply elem_of_cons; right).
    apply list_elem_of_In, in_flat_map. exists (i, m).
    by rewrite <- !list_elem_of_In. }
  split_and!.
  - apply Hin. by left.
  - intros ev Hev. apply Hin. unfold isolated_attempt.
    apply elem_of_cons. right. apply elem_of_app. by left.
  - intros e He. apply Hin. unfold isolated_attempt. cbn [fst snd].
    rewrite He. apply elem_of_cons. right. apply elem_of_app. right.
    by left.
Qed.

(** C8.  When the fetched page yields no manifest, [download_course]
    logs the count, logs one warning and returns: nothing is raised, no
    directory is made and the tool is not invoked. *)
Theorem download_course_no_manifest (url : string) (resp : response) :
  fetch_gives' url resp →
  discover' (text resp) url = [] →
  download_course' url =
    ([Log INFO "Fetching course page: %s" [AStr url] None;
      Get url;
      Log INFO "Found %d manifest(s)" [AInt 0] None;
      Log WARNING
        "No manifest URLs found in page. The site may use an API or DRM-protected packaging."
        [] None],
     Ok ()).
Proof.
  intros Hfetch Hnone.
  by rewrite (download_course_fetched _ _ Hfetch), Hnone.
Qed.

(** C6, as amended.  A failing course-page fetch, [session.get]
    raising or [raise_for_status] raising on the response, ends
    [download_course] with that very exception, right after the request:
    no manifest is looked for, no directory is made, the tool is not
    invoked.  A response on which [raise_for_status] does not raise is
    processed as a page whatever its status code: its text goes to the
    extractor and the count of its manifests is logged. *)
Theorem download_course_fetch_failure (url : string) :
  (∀ e, fetch_fails' url e →
        download_course' url =
          ([Log INFO "Fetching course page: %s" [AStr url] None; Get url],
           Raise e)) ∧
  (∀ resp, fetch_gives' url resp →
           ∃ t r,
             download_course' url =
               ([Log INFO "Fetching course page: %s" [AStr url] None;
                 Get url;
                 Log INFO "Found %d manifest(s)"
                   [AInt (length (discover' (text resp) url))] None]
                ++ t, r)) ∧
  ((∃ e, fetch_fails' url e) ∨ (∃ resp, fetch_gives' url resp)).
Proof.
  split_and!.
  - intros e H. unfold download_course.
    by rewrite (fetch_course_page_fails _ _ _ _ _ H).
  - intros resp H. rewrite (download_course_fetched _ _ H). by do 2 eexists.
  - destruct (fetch_cases session_get http_error self url)
      as [[e H]|[resp H]]; [left|right]; eauto.
Qed.



(** C2, as amended.  After a successful dashboard fetch, the returned
    list holds exactly the targets of the qualifying links, each cut
    before its first question mark; a link qualifies when its [href],
    resolved against the dashboard URL if it is root-relative and taken
    as written otherwise, contains [/course/] or [/learn/] anywhere,
    the query string included.  No returned element holds a question
    mark. *)
Theorem enrolled_courses_from_links (d : option string)
    (resp : response) (results : list string) :
  let url := default "https://web.careerwill.com/" d in
  fetch_gives' url resp →
  outcome (get_enrolled_courses' d) = Ok results →
  (∀ u, u ∈ results ↔
        ∃ h, h ∈ anchor_hrefs (text resp) ∧
             qualifies (normalize_href urljoin url h) = true ∧
             u = strip_query (normalize_href urljoin url h)) ∧
  (∀ u, u ∈ results → contains "?" u = false).
Proof.
  intros url Hfetch.
  rewrite (enrolled_courses_ok _ _ _ _ _ d resp Hfetch). intros [= <-].
  assert (∀ u, u ∈ sorted (course_candidates urljoin url
                             (anchor_hrefs (text resp))) ↔
               ∃ h, h ∈ anchor_hrefs (text resp) ∧
                    qualifies (normalize_href urljoin url h) = true ∧
                    u = strip_query (normalize_href urljoin url h)) as H.
  { intros u. by rewrite elem_of_sorted, elem_of_course_candidates. }
  split; [done|].
  intros u (h & _ & _ & ->)%H. apply strip_query_no_qmark.
Qed.


End RunResults.

(** ** Cookie lines *)

Section CookieResults.
Import Cookies.

(** The [set] calls of the whole loop: those of its lines, in file
    order. *)
Lemma load_cookies_lines (jar : list cookie) (raw : string) :
  load_cookies jar raw =
  jar ++ flat_map (load_line []) (splitlines raw).
Proof.
  unfold load_cookies. revert jar.
  induction (splitlines raw) as [|line lines IH]; intros jar; simpl.
  - by rewrite (right_id_L [] (++)).
  - rewrite IH. rewrite (assoc_L (++)). f_equal.
    unfold load_line. destruct (ignored line); [by rewrite (right_id_L [] (++))|].
    simpl. case_bool_decide; [|by rewrite (right_id_L [] (++))].
    by repeat case_match; rewrite ?(right_id_L [] (++)).
Qed.

End CookieResults.

Section InitFacts.

Variable getcwd : string.
Variable makedirs_error : string → option exn.
Variable path_exists : string → bool.
Variable read_text : string → result string.
Variable default_headers : gmap string string.

(** With no bearer token and a readable cookie file, the session of
    the built object has received exactly the [set] calls of the line
    loop. *)
Lemma init_loads_cookies (bearer : option string) (file raw : string)
    (keys : option (gmap string string)) (out : string) :
  truthy bearer = false → truthy (Some file) = true →
  truthy (Some out) = true →
  makedirs_error out = None →
  path_exists file = true → read_text file = Ok raw →
  init getcwd makedirs_error path_exists read_text default_headers
    bearer (Some file) keys (Some out) =
  ([MakeDirs out; ReadFile file],
   Ok (Downloader
         (Session default_headers (Cookies.load_cookies [] raw))
         bearer (Some file) (default ∅ keys) out)).
Proof.
  intros Hb Hf Ho Hm He Hr. unfold init, os_makedirs, open_read.
  rewrite Hb, Hf, Ho. simpl. by rewrite Hm, He, Hr.
Qed.

End InitFacts.

(** ** The cookie file, parsed *)

Section CookieFileResults.
Import Str Cookies Spec2.

Variable getcwd : string.
Variable makedirs_error : string → option exn.
Variable path_exists : string → bool.
Variable read_text : string → result string.
Variable default_headers : gmap string string.

Lemma splitlines_line (l rest : string) :
  one_line l → splitlines (l +:+ String LF rest) = l :: splitlines rest.
Proof.
  induction l as [|c l IH]; intros Hl; [done|].
  assert (is_linebreak c = false) as Hc by (apply Hl; left).
  cbn [String.append splitlines]. rewrite Hc, IH; [done|].
  intros d Hd. apply Hl. by right.
Qed.

Lemma splitlines_unlines (ls : list string) :
  Forall one_line ls → splitlines (unlines ls) = ls.
Proof.
  induction 1 as [|l ls Hl _ IH]; [done|].
  cbn [unlines foldr]. rewrite splitlines_line by done.
  f_equal. exact IH.
Qed.

(** C7.  When [__init__] parses the cookie file (no bearer token, the
    file named, found and read), the session receives, in file order,
    the [set] calls of the lines of [raw.splitlines()], each line on its
    own; the lines of a file written line by line are these very lines.
    A line that starts with [#] or is blank makes no call; any other
    line with fewer than seven tab-separated fields makes none; any
    other line with seven or more makes exactly one, with the name of
    field 5 and the value of field 6, for the domain of field 0. *)
Theorem init_registers_cookie_lines (b : option string) (file raw : string)
    (k : option (gmap string string)) (o : option string) :
  let out :=
    if truthy o then default EmptyString o
    else Path.join getcwd "careerwill_out" in
  makedirs_error out = None → truthy b = false →
  truthy (Some file) = true → path_exists file = true →
  read_text file = Ok raw →
  (∃ dl,
     init getcwd makedirs_error path_exists read_text default_headers
       b (Some file) k o = ([MakeDirs out; ReadFile file], Ok dl) ∧
     set_calls (dl_session dl) =
       flat_map (load_line []) (splitlines raw)) ∧
  (∀ ls, Forall one_line ls → raw = unlines ls → splitlines raw = ls) ∧
  ∀ line,
    let parts := split tab line in
    (startswith "#" line = true ∨ is_blank line = true →
     load_line [] line = []) ∧
    (startswith "#" line = false → is_blank line = false →
     length parts < 7 → load_line [] line = []) ∧
    (startswith "#" line = false → is_blank line = false →
     7 ≤ length parts →
     ∃ d n v, parts !! 0 = Some d ∧ parts !! 5 = Some n ∧
              parts !! 6 = Some v ∧
              load_line [] line = [Cookie d n v]).
Proof.
  intros out Hm Hb Hf He Hr. split_and!.
  - eexists. split.
    + unfold init, os_makedirs, open_read. fold out.
      rewrite Hb, Hf. simpl. rewrite Hm, He. simpl. rewrite Hr. simpl.
      reflexivity.
    + unfold set_calls. simpl. by rewrite load_cookies_lines.
  - intros ls Hls ->. by apply splitlines_unlines.
  - intros line parts. unfold load_line, ignored. fold parts. split_and!.
    + intros [-> | ->]; [done|by rewrite orb_true_r].
    + intros -> -> Hlen. simpl. by rewrite bool_decide_false by lia.
    + intros -> -> Hlen. simpl. rewrite bool_decide_true by done.
      destruct (lookup_lt_is_Some_2 parts 0) as [d Hd]; [lia|].
      destruct (lookup_lt_is_Some_2 parts 5) as [n Hn]; [lia|].
      destruct (lookup_lt_is_Some_2 parts 6) as [v Hv]; [lia|].
      exists d, n, v. by rewrite Hd, Hn, Hv.
Qed.

End CookieFileResults.

(** ** The sample inputs, run *)

Section Instances.
Import Str Pattern Spec Sample Sample2.

(** The sample page under the pattern of [Pattern]: the root-relative
    link is not returned, and the result has one element. *)
Lemma discover_misses_root_relative :
  discover_manifest_urls tags1 urljoin1 page1 base1
    = ["https://cdn.example.com/a.m3u8"] ∧
  urljoin1 base1 "/video/b.mpd" = "https://site.example/video/b.mpd" ∧
  "https://site.example/video/b.mpd"
    ∉ discover_manifest_urls tags1 urljoin1 page1 base1.
Proof.
  assert (discover_manifest_urls tags1 urljoin1 page1 base1
          = ["https://cdn.example.com/a.m3u8"]) as E
    by (vm_compute; reflexivity).
  rewrite E. split_and!; [done|done|].
  by intros [=]%list_elem_of_singleton.
Qed.

(** C9 on line 74, the scan of a script text. *)
Lemma scan_call_rejected_witness :
  Tokenizer.check_line indent_74 = Tokenizer.Reads [] Tokenizer.Code ∧
  Tokenizer.check_line Tokenizer.line_74
    = Tokenizer.SyntaxError (Tokenizer.Mismatch "]" "(").
Proof.
  split; [reflexivity|].
  exact (scan_call_rejected indent_74 rest_74 [] eq_refl).
Defined.

(** C8 on the page without manifest URLs. *)
Lemma download_course_no_manifest_witness :
  outcome
    (download_course makedirs_ok (serve page0) strict_status tags0
       urljoin1 None self1 base1) = Ok ().
Proof.
  rewrite (download_course_no_manifest makedirs_ok (serve page0)
             strict_status tags0 urljoin1 None self1 base1
             (Response 200 page0)).
  - reflexivity.
  - split; reflexivity.
  - vm_compute. reflexivity.
Defined.

(** C3 on the page with three manifests, the tool failing on the second
    one: the run ends normally, the failure is logged with that URL,
    and the third manifest is still handed to the tool. *)
Lemma download_course_isolates_witness :
  outcome run3 = Ok () ∧
  Log ERROR "Failed to download manifest: %s"
    [AStr "https://cdn.example.com/1.m3u8"]
    (Some (DownloadError "HTTP Error 403: Forbidden")) ∈ trace run3 ∧
  Download (YdlOpts "out/manifest_3/%(title)s.%(ext)s" true true false)
    ["https://cdn.example.com/2.mpd"] ∈ trace run3.
Proof.
  destruct (download_course_isolates makedirs_ok (serve page3)
              strict_status no_tags urljoin1
              (failing_on "https://cdn.example.com/1.m3u8") self1 url3
              (Response 200 page3) manifests3)
    as (Hend & _ & Heach & _).
  - split; reflexivity.
  - vm_compute. reflexivity.
  - discriminate.
  - intros i m _. reflexivity.
  - split_and!.
    + exact Hend.
    + apply (Heach 2 "https://cdn.example.com/1.m3u8").
      * right. left.
      * vm_compute. reflexivity.
    + apply (Heach 3 "https://cdn.example.com/2.mpd").
      * right. right. left.
      * do 2 right. left.
Defined.

(** C3 as stated fails: the tool fails on the first of three manifests,
    the failure is logged and the loop goes on, but the directory of the
    second manifest cannot be made; [os.makedirs] stands outside the
    [try], so the run ends there with its error and neither the second
    nor the third manifest is attempted. *)
Lemma download_course_isolation_breaks :
  discover_manifest_urls no_tags urljoin1 page3 url3 = manifests3 ∧
  download_course makedirs_fail_2 (serve page3) requests_status no_tags
    urljoin1 (failing_on "https://cdn.example.com/3.m3u8?t=9") self1 url3 =
  ([Log INFO "Fetching course page: %s" [AStr url3] None;
    Get url3;
    Log INFO "Found %d manifest(s)" [AInt 3] None;
    MakeDirs "out/manifest_1";
    YoutubeDL (YdlOpts "out/manifest_1/%(title)s.%(ext)s" true true false);
    Log INFO "Downloading manifest: %s"
      [AStr "https://cdn.example.com/3.m3u8?t=9"] None;
    Download (YdlOpts "out/manifest_1/%(title)s.%(ext)s" true true false)
      ["https://cdn.example.com/3.m3u8?t=9"];
    Log ERROR "Failed to download manifest: %s"
      [AStr "https://cdn.example.com/3.m3u8?t=9"]
      (Some (DownloadError "HTTP Error 403: Forbidden"));
    MakeDirs "out/manifest_2"],
   Raise (OSError "permission denied")).
Proof. split; vm_compute; reflexivity. Qed.

(** C6 on a course page answered with status 404. *)
Lemma download_course_fetch_failure_witness :
  download_course makedirs_ok serve_404 requests_status no_tags urljoin1
    None self1 url3 =
  ([Log INFO "Fetching course page: %s" [AStr url3] None; Get url3],
   Raise (HTTPError 404)).
Proof.
  apply (download_course_fetch_failure makedirs_ok serve_404
           requests_status no_tags urljoin1 None self1 url3).
  right. exists (Response 404 ""). split; reflexivity.
Defined.

(** C6 as stated fails: a response with status 304 is outside the 2xx
    range, yet [raise_for_status] raises nothing on it, and the run
    processes it as a page: the manifest of its text is found and
    handed to the tool. *)
Lemma download_course_processes_304 :
  ¬ success_status (Response 304 page1) ∧
  requests_status (Response 304 page1) = None ∧
  download_course makedirs_ok (serve_304 page1) requests_status tags1
    urljoin1 tool_ok self1 base1 =
  ([Log INFO "Fetching course page: %s" [AStr base1] None;
    Get base1;
    Log INFO "Found %d manifest(s)" [AInt 1] None;
    MakeDirs "out/manifest_1";
    YoutubeDL (YdlOpts "out/manifest_1/%(title)s.%(ext)s" true true false);
    Log INFO "Downloading manifest: %s"
      [AStr "https://cdn.example.com/a.m3u8"] None;
    Download (YdlOpts "out/manifest_1/%(title)s.%(ext)s" true true false)
      ["https://cdn.example.com/a.m3u8"]],
   Ok ()).
Proof.
  split_and!.
  - unfold success_status. simpl. lia.
  - reflexivity.
  - vm_compute. reflexivity.
Qed.


(** C2 as stated fails: a link that names a course in its query string
    only is returned, cut to a URL without either segment, and a link
    written relative to the page is returned as it is. *)
Lemma enrolled_courses_query_match :
  outcome
    (get_enrolled_courses (serve dashboard1) strict_status hrefs1
       urljoin1 self1 (Some "https://site.example/"))
    = Ok ["https://site.example/home"; "lessons/learn/intro"] ∧
  qualifies "https://site.example/home" = false ∧
  startswith "http://" "lessons/learn/intro" = false ∧
  startswith "https://" "lessons/learn/intro" = false.
Proof. split_and!; vm_compute; reflexivity. Qed.

(** C2, amended, on the same dashboard. *)
Lemma enrolled_courses_from_links_witness :
  fetch_gives (serve dashboard1) strict_status self1
    "https://site.example/" (Response 200 dashboard1) ∧
  contains "?" "https://site.example/home" = false.
Proof.
  assert (fetch_gives (serve dashboard1) strict_status self1
            "https://site.example/" (Response 200 dashboard1)) as Hf
    by (split; reflexivity).
  split; [exact Hf|].
  destruct (enrolled_courses_from_links (serve dashboard1) strict_status
              hrefs1 urljoin1 self1 (Some "https://site.example/")
              (Response 200 dashboard1)
              ["https://site.example/home"; "lessons/learn/intro"] Hf)
    as [_ H].
  - vm_compute. reflexivity.
  - apply H. left.
Defined.


(** C7 on a file of four lines: a comment, a line of six fields, a
    blank line and a line of seven fields. *)
Lemma init_registers_cookie_lines_witness :
  ∃ dl,
    outcome
      (init "/home/u" makedirs_ok only_cookies_txt read_cookie_file ∅
         None (Some "cookies.txt") None (Some "out")) = Ok dl ∧
    set_calls (dl_session dl)
      = [Cookies.Cookie ".site.example" "sid" "abc123"].
Proof.
  destruct (init_registers_cookie_lines "/home/u" makedirs_ok
              only_cookies_txt read_cookie_file ∅ None "cookies.txt"
              cookie_file None (Some "out"))
    as ((dl & Hrun & Hcalls) & Hlines & _); [reflexivity..|].
  exists dl. split.
  - rewrite Hrun. reflexivity.
  - rewrite Hcalls, (Hlines cookie_lines); [reflexivity| |reflexivity].
    repeat constructor; intros c Hc; vm_compute in Hc;
      repeat (apply elem_of_cons in Hc as [->|Hc]; [reflexivity|]);
      by apply elem_of_nil in Hc.
Defined.

End Instances.

(** * Further properties *)

(** ** The extractor, whatever the scan *)

Section ExtractorMore.
Import Str.

Variable scan : string → list string.
Variable script_tags : string → list (option string).
Variable urljoin : string → string → string.

Lemma elem_of_scan_scripts_with (tags : list (option string))
    (acc : gset string) (x : string) :
  x ∈ foldl (scan_script_with scan) acc tags ↔
  x ∈ acc ∨ ∃ str, Some str ∈ tags ∧ str ≠ "" ∧ x ∈ scan str.
Proof.
  clear script_tags urljoin.
  revert acc. induction tags as [|o tags IH]; intros acc; simpl.
  - split; [by left|]. intros [?|(str & ?%elem_of_nil & _)]; done.
  - rewrite IH. split.
    + intros [Hx|(str & ? & ? & ?)].
      * destruct o as [[|c str]|]; simpl in Hx; [by left| |by left].
        apply elem_of_add_all in Hx as [Hx|Hx]; [|by left].
        right. exists (String c str). split_and!; [left|done..].
      * right. exists str. split_and!; [by right|done..].
    + intros [?|(str & [<-|?]%elem_of_cons & Hne & ?)].
      * left. destruct o as [[|c str]|]; simpl; [done| |done].
        apply elem_of_add_all. by right.
      * left. destruct str as [|c str]; [done|]. simpl.
        apply elem_of_add_all. by left.
      * right. by exists str.
Qed.

Lemma elem_of_candidates_with (html x : string) :
  x ∈ candidates_with scan script_tags html ↔
  x ∈ scan html ∨
  ∃ str, Some str ∈ script_tags html ∧ str ≠ "" ∧ x ∈ scan str.
Proof.
  unfold candidates_with.
  rewrite elem_of_scan_scripts_with, elem_of_add_all.
  clear urljoin. set_solver.
Qed.

Lemma elem_of_normalize (base_url : string) (l : list string)
    (acc : gset string) (u : string) :
  u ∈ foldl (normalize_step urljoin base_url) acc l ↔
  u ∈ acc ∨
  ∃ m, m ∈ l ∧ u = if startswith "/" m then urljoin base_url m else m.
Proof.
  clear scan script_tags.
  revert acc. induction l as [|m l IH]; intros acc; simpl.
  - split; [by left|]. intros [?|(m & ?%elem_of_nil & _)]; done.
  - rewrite IH. unfold normalize_step. split.
    + intros [Hu|(m' & ? & ?)].
      * destruct (startswith "/" m) eqn:E.
        -- apply elem_of_union in Hu as [->%elem_of_singleton|?];
             [|by left].
           right. exists m. split; [left|by rewrite E].
        -- apply elem_of_union in Hu as [->%elem_of_singleton|?];
             [|by left].
           right. exists m. split; [left|by rewrite E].
      * right. exists m'. split; [by right|done].
    + intros [?|(m' & [->|?]%elem_of_cons & ->)].
      * left. destruct (startswith "/" m); apply elem_of_union; by right.
      * left. destruct (startswith "/" m); apply elem_of_union; left;
          by apply elem_of_singleton.
      * right. by exists m'.
Qed.

(** The embedded method is the instance at the pattern of [Pattern]. *)
Lemma discover_manifest_urls_with :
  discover_manifest_urls script_tags urljoin =
  discover_with Pattern.findall script_tags urljoin.
Proof. reflexivity. Qed.

(** X2.  Whatever the scan reports, the returned list has no
    duplicates, and a URL is in it exactly when it comes from a match
    of the page text or of some non-empty script text: the match itself,
    or the match joined to the base URL when it begins with a slash. *)
Theorem discover_collects_both_scans (html base_url u : string) :
  NoDup (discover_with scan script_tags urljoin html base_url) ∧
  (u ∈ discover_with scan script_tags urljoin html base_url ↔
   ∃ m, (m ∈ scan html ∨
         ∃ str, Some str ∈ script_tags html ∧ str ≠ "" ∧ m ∈ scan str) ∧
        u = if startswith "/" m then urljoin base_url m else m).
Proof.
  unfold discover_with. split; [apply NoDup_elements|].
  rewrite elem_of_elements, elem_of_normalize. split.
  - intros [?%elem_of_empty|(m & Hm%elem_of_elements & ->)]; [done|].
    exists m. split; [|done]. by apply elem_of_candidates_with.
  - intros (m & Hm & ->). right. exists m. split; [|done].
    by apply elem_of_elements, elem_of_candidates_with.
Qed.

End ExtractorMore.

(** ** More on course links *)

Section LinksMore.
Import Str.

Lemma split_hd_prefix (sep : ascii) (s : string) :
  ∃ rest, s = hd EmptyString (split sep s) +:+ rest ∧
          (rest = "" ∨ startswith (String sep "") rest = true).
Proof.
  induction s as [|c s (rest & IH & Hrest)]; simpl.
  - exists "". by split; [|left].
  - destruct (Ascii.eqb c sep) eqn:Hc.
    + apply Ascii.eqb_eq in Hc as ->. exists (String sep s). simpl.
      split; [done|right]. apply startswith_head.
    + pose proof (split_nonempty sep s) as Hne.
      destruct (split sep s) as [|f fs]; [done|]. simpl in *.
      exists rest. split; [by rewrite <- IH|done].
Qed.

Lemma size_add_le (x : string) (acc : gset string) :
  size ({[x]} ∪ acc) ≤ S (size acc).
Proof.
  rewrite size_union_alt, size_singleton.
  apply le_n_S, subseteq_size. set_solver.
Qed.

Lemma course_candidates_size (urljoin : string → string → string)
    (d : string) (hrefs : list string) :
  size (course_candidates urljoin d hrefs) ≤ length hrefs.
Proof.
  unfold course_candidates.
  assert (∀ acc, size (foldl (link_step urljoin d) acc hrefs)
                 ≤ size acc + length hrefs) as H.
  { induction hrefs as [|h hrefs IH]; intros acc; simpl; [lia|].
    etrans; [apply IH|]. unfold link_step.
    destruct (qualifies _); [|lia].
    pose proof (size_add_le (strip_query (normalize_href urljoin d h)) acc).
    lia. }
  specialize (H ∅). by rewrite size_empty in H.
Qed.

(** X5.  What [href.split('?')[0]] keeps is the start of the link target:
    what is cut off is nothing, or begins with the question mark; cutting
    twice changes nothing more. *)
Theorem strip_query_prefix (h : string) :
  (∃ rest, h = strip_query h +:+ rest ∧
           (rest = "" ∨ startswith "?" rest = true)) ∧
  strip_query (strip_query h) = strip_query h.
Proof.
  split; [apply (split_hd_prefix "?" h)|].
  apply strip_query_id, strip_query_no_qmark.
Qed.

Variable session_get : session → string → result response.
Variable http_error : response → option exn.
Variable anchor_hrefs : string → list string.
Variable urljoin : string → string → string.
Variable self : downloader.

Local Abbreviation get_enrolled_courses' :=
  (get_enrolled_courses session_get http_error anchor_hrefs urljoin self).

(** X6.  Whenever the method returns, it has sent one request, to the
    given dashboard URL or to the site root when none is given, and
    written one log record: the count of the returned courses, or, when
    the fetch failed, the failure with its error, the returned list
    being empty then. *)
Theorem enrolled_courses_single_request (d : option string)
    (t : list event) (results : list string) :
  let url := default "https://web.careerwill.com/" d in
  get_enrolled_courses' d = (t, Ok results) →
  ∃ record,
    t = [Get url; record] ∧
    (record =
       Log INFO "Discovered %d enrolled course(s)" [AInt (length results)]
         None ∨
     ∃ e, fetch_fails session_get http_error self url e ∧ results = [] ∧
          record =
            Log ERROR "Failed to fetch dashboard URL: %s" [AStr url]
              (Some e)).
Proof.
  intros url.
  destruct (fetch_cases session_get http_error self url) as [[e H]|[resp H]].
  - rewrite (enrolled_courses_fails _ _ _ _ _ d e H). intros [= <- <-].
    eexists. split; [done|]. right. by exists e.
  - rewrite (enrolled_courses_ok _ _ _ _ _ d resp H). intros [= <- <-].
    eexists. split; [done|]. by left.
Qed.

(** X7.  After a successful fetch the method returns at most as many
    courses as the page has links. *)
Theorem enrolled_courses_count (d : option string) (resp : response)
    (results : list string) :
  let url := default "https://web.careerwill.com/" d in
  fetch_gives session_get http_error self url resp →
  outcome (get_enrolled_courses' d) = Ok results →
  length results ≤ length (anchor_hrefs (text resp)).
Proof.
  intros url Hfetch.
  rewrite (enrolled_courses_ok _ _ _ _ _ d resp Hfetch). intros [= <-].
  rewrite sorted_perm. apply (course_candidates_size urljoin).
Qed.

End LinksMore.

(** ** More on the cookie file *)

Section CookiesMore.
Import Str Cookies Spec2.

Lemma split_field_chars (sep : ascii) (s f : string) (c : ascii) :
  f ∈ split sep s → has_char c f → has_char c s ∧ c ≠ sep.
Proof.
  unfold has_char. revert f. induction s as [|x s IH]; intros f; simpl.
  - intros ->%list_elem_of_singleton. by intros ?%elem_of_nil.
  - destruct (Ascii.eqb x sep) eqn:Hx.
    + intros [->|Hf]%elem_of_cons; [by intros ?%elem_of_nil|].
      intros Hc. destruct (IH _ Hf Hc). split; [by right|done].
    + pose proof (split_nonempty sep s) as Hne.
      destruct (split sep s) as [|g gs]; [done|].
      apply Ascii.eqb_neq in Hx.
      intros [->|Hf]%elem_of_cons.
      * simpl. intros [->|Hc]%elem_of_cons; [split; [left|done]|].
        destruct (IH g (list_elem_of_here _ _) Hc). split; [by right|done].
      * intros Hc.
        destruct (IH f (list_elem_of_further _ _ _ Hf) Hc).
        split; [by right|done].
Qed.

Lemma splitlines_chars (s l : string) (c : ascii) :
  l ∈ splitlines s → has_char c l → is_linebreak c = false.
Proof.
  unfold has_char. revert l. induction s as [|x s IH]; intros l; simpl.
  - by intros ?%elem_of_nil.
  - destruct (is_linebreak x) eqn:Hx.
    + destruct (_ && _); [apply IH|].
      intros [->|Hl]%elem_of_cons; [by intros ?%elem_of_nil|by apply IH].
    + destruct (splitlines s) as [|g gs].
      * intros ->%list_elem_of_singleton. simpl.
        intros [->|?%elem_of_nil]%elem_of_cons; done.
      * intros [->|Hl]%elem_of_cons.
        -- simpl. intros [->|Hc]%elem_of_cons; [done|].
           by apply (IH g); [left|].
        -- apply IH. by right.
Qed.

Lemma load_line_nil_cases (line : string) :
  load_line [] line = [] ∨
  ∃ d n v, load_line [] line = [Cookie d n v] ∧
           ignored line = false ∧
           split tab line !! 0 = Some d ∧ split tab line !! 5 = Some n ∧
           split tab line !! 6 = Some v.
Proof.
  unfold load_line. destruct (ignored line); [by left|].
  case_bool_decide; [|by left].
  destruct (split tab line !! 0) as [d|] eqn:Hd; [|by left].
  destruct (split tab line !! 5) as [n|] eqn:Hn; [|by left].
  destruct (split tab line !! 6) as [v|] eqn:Hv; [|by left].
  right. by exists d, n, v.
Qed.

Lemma elem_of_load_cookies (raw : string) (ck : cookie) :
  ck ∈ load_cookies [] raw →
  ∃ line, line ∈ splitlines raw ∧ load_line [] line = [ck].
Proof.
  rewrite load_cookies_lines. simpl.
  intros (line & Hline & Hck)%list_elem_of_In%in_flat_map.
  apply list_elem_of_In in Hline, Hck. exists line. split; [done|].
  destruct (load_line_nil_cases line) as [E|(d & n & v & E & _)];
    rewrite E in Hck.
  - by apply elem_of_nil in Hck.
  - apply list_elem_of_singleton in Hck. by subst.
Qed.

(** X9.  No field of a registered cookie holds a tab or a line boundary,
    and no registered domain begins with the comment mark. *)
Theorem cookie_fields_clean (raw : string) :
  Forall (λ ck, clean_field (domain ck) ∧ clean_field (name ck) ∧
                clean_field (value ck) ∧
                startswith "#" (domain ck) = false)
    (load_cookies [] raw).
Proof.
  apply Forall_forall. intros ck (line & Hline & Hck)%elem_of_load_cookies.
  destruct (load_line_nil_cases line)
    as [E|(d & n & v & E & Hign & Hd & Hn & Hv)]; rewrite E in Hck; [done|].
  injection Hck as <-. simpl.
  assert (∀ i f, split tab line !! i = Some f → clean_field f) as Hclean.
  { intros i f Hf c Hc.
    destruct (split_field_chars tab line f c) as [Hin Hne]; [|done|].
    - by eapply list_elem_of_lookup_2.
    - split; [done|]. by eapply splitlines_chars. }
  split_and!; eauto.
  destruct (split_hd_prefix tab line) as (rest & Hrest & _).
  destruct (split tab line) as [|f fs] eqn:Es; [done|].
  simpl in Hd, Hrest. injection Hd as ->.
  unfold ignored in Hign. apply orb_false_iff in Hign as [Hhash _].
  destruct (startswith "#" d) eqn:Hs; [|done].
  apply (startswith_inv "#") in Hs as [r ->].
  rewrite Hrest, str_app_assoc in Hhash.
  by rewrite (startswith_app "#") in Hhash.
Qed.

Lemma split_app_sep (sep : ascii) (a b : string) :
  split sep (a +:+ String sep b) = split sep a ++ split sep b.
Proof.
  induction a as [|c a IH]; simpl.
  - by rewrite Ascii.eqb_refl.
  - rewrite IH. destruct (Ascii.eqb c sep); [done|].
    pose proof (split_nonempty sep a) as Hne.
    by destruct (split sep a).
Qed.

Lemma is_blank_app (a b : string) :
  is_blank (a +:+ b) = is_blank a && is_blank b.
Proof.
  induction a as [|c a IH]; simpl; [done|].
  by rewrite IH, andb_assoc.
Qed.

(** X10.  Fields after the seventh are not read: a line that registers
    a cookie registers the same one when more fields follow. *)
Theorem load_line_extra_fields_ignored (jar : list cookie)
    (line extra : string) :
  ignored line = false → 7 ≤ length (split tab line) →
  load_line jar (line +:+ String tab extra) = load_line jar line.
Proof.
  intros Hign Hlen. unfold load_line. rewrite Hign.
  assert (ignored (line +:+ String tab extra) = false) as ->.
  { unfold ignored in *. apply orb_false_iff in Hign as [Hhash Hblank].
    rewrite is_blank_app, Hblank. simpl. rewrite orb_false_r.
    destruct line as [|c line]; [done|].
    destruct (startswith "#" (String c line +:+ _)) eqn:E; [|done].
    apply (startswith_inv "#") in E as [r E]. simplify_eq/=.
    by rewrite startswith_nil in Hhash. }
  rewrite split_app_sep, length_app.
  rewrite !bool_decide_true by lia.
  by rewrite !lookup_app_l by lia.
Qed.

End CookiesMore.

(** ** More on [__init__] *)

Section InitMore.

Variable getcwd : string.
Variable makedirs_error : string → option exn.
Variable path_exists : string → bool.
Variable read_text : string → result string.
Variable default_headers : gmap string string.

Local Abbreviation init' :=
  (init getcwd makedirs_error path_exists read_text default_headers).

(** Every way [__init__] can go. *)
Lemma init_cases (b f : option string) (k : option (gmap string string))
    (o : option string) :
  let out :=
    if truthy o then default EmptyString o
    else Path.join getcwd "careerwill_out" in
  let file := default EmptyString f in
  let made (s : session) := Downloader s b f (default ∅ k) out in
  init' b f k o =
  match makedirs_error out with
  | Some e => ([MakeDirs out], Raise e)
  | None =>
      if truthy b then
        ([MakeDirs out],
         Ok (made (Session
                     (<["Authorization" :=
                          "Bearer " +:+ default EmptyString b]>
                        default_headers) [])))
      else if truthy f && path_exists file then
        match read_text file with
        | Ok raw =>
            ([MakeDirs out; ReadFile file],
             Ok (made (Session default_headers
                         (Cookies.load_cookies [] raw))))
        | Raise e =>
            ([MakeDirs out; ReadFile file;
              Log ERROR "Failed to load cookies file" [] (Some e)],
             Ok (made (Session default_headers [])))
        end
      else ([MakeDirs out], Ok (made (Session default_headers [])))
  end.
Proof.
  intros out file made. unfold init, os_makedirs, open_read. fold out file.
  destruct (makedirs_error out); [done|]. simpl.
  destruct (truthy b); [done|].
  destruct (truthy f && path_exists file); [|done].
  by destruct (read_text file).
Qed.

(** X11.  The object carries one credential at most: with a bearer token
    the session gets the authorization header and no cookie; without
    one the headers stay as they were, and any cookie comes from the
    cookie file. *)
Theorem init_credentials_exclusive (b f : option string)
    (k : option (gmap string string)) (o : option string)
    (dl : downloader) :
  outcome (init' b f k o) = Ok dl →
  bearer_token dl = b ∧
  (truthy b = true →
   headers (dl_session dl) =
     <["Authorization" := "Bearer " +:+ default EmptyString b]>
       default_headers ∧
   cookies (dl_session dl) = []) ∧
  (truthy b = false → headers (dl_session dl) = default_headers) ∧
  (cookies (dl_session dl) ≠ [] →
   truthy b = false ∧
   ∃ file raw, f = Some file ∧ path_exists file = true ∧
               read_text file = Ok raw ∧
               cookies (dl_session dl) = Cookies.load_cookies [] raw).
Proof.
  rewrite init_cases. cbn zeta.
  destruct (makedirs_error _); [done|].
  destruct (truthy b) eqn:Hb.
  { intros [= <-]. simpl. by split_and!. }
  destruct (truthy f && path_exists (default "" f)) eqn:Hf.
  - apply andb_prop in Hf as [Hf Hex].
    destruct f as [file|]; [|done]. simpl in *.
    destruct (read_text file) as [raw|e] eqn:Hr; intros [= <-]; simpl;
      split_and!; try done.
    intros _. split; [done|]. by exists file, raw.
  - intros [= <-]. simpl. by split_and!.
Qed.

(** X12.  A cookie file that exists but cannot be read is a logged, soft
    failure: the failure is recorded and the object is built without
    cookies. *)
Theorem init_unreadable_cookie_file (b : option string) (file : string)
    (k : option (gmap string string)) (o : option string) (e : exn) :
  let out :=
    if truthy o then default EmptyString o
    else Path.join getcwd "careerwill_out" in
  makedirs_error out = None → truthy b = false →
  truthy (Some file) = true → path_exists file = true →
  read_text file = Raise e →
  init' b (Some file) k o =
    ([MakeDirs out; ReadFile file;
      Log ERROR "Failed to load cookies file" [] (Some e)],
     Ok (Downloader (Session default_headers []) b (Some file)
           (default ∅ k) out)).
Proof.
  intros out Hm Hb Hf Hex Hr. rewrite init_cases. cbn zeta. fold out.
  rewrite Hm, Hb, Hf. simpl. by rewrite Hex, Hr.
Qed.

(** X13.  Given an output directory, building the object raises only
    when that directory cannot be made, with the error of [os.makedirs]
    and before anything else is done. *)
Theorem init_raises_only_for_output_dir (b f : option string)
    (k : option (gmap string string)) (out : string) (e : exn) :
  truthy (Some out) = true →
  outcome (init' b f k (Some out)) = Raise e →
  makedirs_error out = Some e ∧
  init' b f k (Some out) = ([MakeDirs out], Raise e).
Proof.
  intros Ho. rewrite init_cases. cbn zeta. rewrite Ho. simpl.
  destruct (makedirs_error out) as [e'|]; [by intros [= <-]|].
  destruct (truthy b); [done|].
  destruct (truthy f && path_exists (default "" f)); [|done].
  by destruct (read_text (default "" f)).
Qed.

(** X14.  The cookie file is read exactly when the output directory was
    made, no bearer token is given, and a cookie file is named and
    exists. *)
Theorem init_reads_cookie_file_iff (b f : option string)
    (k : option (gmap string string)) (o : option string) (file : string) :
  let out :=
    if truthy o then default EmptyString o
    else Path.join getcwd "careerwill_out" in
  ReadFile file ∈ trace (init' b f k o) ↔
  makedirs_error out = None ∧ truthy b = false ∧ f = Some file ∧
  file ≠ "" ∧ path_exists file = true.
Proof.
  intros out. rewrite init_cases. cbn zeta. fold out. unfold trace.
  destruct (makedirs_error out) as [e'|]; simpl;
    [rewrite elem_of_cons, elem_of_nil; naive_solver|].
  destruct (truthy b); simpl;
    [rewrite elem_of_cons, elem_of_nil; naive_solver|].
  destruct f as [[|c g]|]; simpl;
    [rewrite elem_of_cons, elem_of_nil; naive_solver| |
     rewrite elem_of_cons, elem_of_nil; naive_solver].
  destruct (path_exists (String c g)) eqn:Hex; simpl.
  - destruct (read_text (String c g)); simpl;
      rewrite !elem_of_cons, elem_of_nil; naive_solver.
  - rewrite elem_of_cons, elem_of_nil. split; [by intros [?|[]]|].
    intros (_ & _ & [= <-] & _ & ?). congruence.
Qed.

End InitMore.

(** ** More on the download run *)

Section DownloadMore.
Import Str Spec2.

Lemma decimal_inj (i j : nat) : Path.decimal i = Path.decimal j → i = j.
Proof.
  unfold Path.decimal. intros H.
  apply DecimalNat.Unsigned.to_uint_inj.
  apply (f_equal DecimalString.NilEmpty.uint_of_string) in H.
  rewrite !DecimalString.NilEmpty.usu in H. by injection H.
Qed.

Lemma join_relative_inj (a b b' : string) :
  startswith "/" b = false → startswith "/" b' = false →
  Path.join a b = Path.join a b' → b = b'.
Proof.
  unfold Path.join. intros -> ->.
  destruct (bool_decide (a = "") || Path.ends_with_sep a); intros H.
  - by apply (inj (String.app a)) in H.
  - apply (inj (String.app a)) in H. by apply (inj (String.app "/")) in H.
Qed.

Lemma out_subdir_inj_aux (self : downloader) (i j : nat) :
  out_subdir self i = out_subdir self j → i = j.
Proof.
  unfold out_subdir. intros H.
  apply join_relative_inj in H; [|done..].
  apply (inj (String.app "manifest_")) in H. by apply decimal_inj.
Qed.

Variable makedirs_error : string → option exn.
Variable session_get : session → string → result response.
Variable http_error : response → option exn.
Variable script_tags : string → list (option string).
Variable urljoin : string → string → string.
Variable yt_dlp : option (ydl_opts → result (list string → option exn)).
Variable self : downloader.

Local Abbreviation fetch_fails' :=
  (fetch_fails session_get http_error self).
Local Abbreviation fetch_gives' :=
  (fetch_gives session_get http_error self).
Local Abbreviation download_step' :=
  (download_step makedirs_error yt_dlp self).
Local Abbreviation download_course' :=
  (download_course makedirs_error session_get http_error script_tags
     urljoin yt_dlp self).
Local Abbreviation discover' := (discover_manifest_urls script_tags urljoin).
Local Abbreviation attempt' := (attempt yt_dlp self).

Lemma elem_of_enumerate {A} (start : nat) (xs : list A) (i : nat) (x : A) :
  (i, x) ∈ enumerate start xs ↔ start ≤ i ∧ xs !! (i - start) = Some x.
Proof.
  revert start. induction xs as [|y xs IH]; intros start; simpl.
  - rewrite elem_of_nil. naive_solver.
  - rewrite elem_of_cons, IH. split.
    + intros [[= -> ->]|[Hle Hx]].
      * by rewrite Nat.sub_diag.
      * split; [lia|]. by replace (i - start) with (S (i - S start)) by lia.
    + intros [Hle Hx]. destruct (decide (i = start)) as [->|].
      * rewrite Nat.sub_diag in Hx. left. by simplify_eq/=.
      * right. split; [lia|].
        by replace (i - start) with (S (i - S start)) in Hx by lia.
Qed.

Lemma enumerate_app {A} (start : nat) (xs ys : list A) :
  enumerate start (xs ++ ys) =
  enumerate start xs ++ enumerate (start + length xs) ys.
Proof.
  revert start. induction xs as [|x xs IH]; intros start; simpl.
  - by rewrite Nat.add_0_r.
  - rewrite IH. do 3 f_equal. lia.
Qed.

Lemma enumerate_fst {A} (start : nat) (xs : list A) :
  (enumerate start xs).*1 = seq start (length xs).
Proof.
  revert start. induction xs as [|x xs IH]; intros start; simpl; [done|].
  by rewrite IH.
Qed.

Lemma for_each_trace_elem {A} (xs : list A) (body : A → M unit)
    (ev : event) :
  ev ∈ trace (for_each xs body) → ∃ x, x ∈ xs ∧ ev ∈ trace (body x).
Proof.
  induction xs as [|x xs IH]; simpl.
  - by intros ?%elem_of_nil.
  - destruct (body x) as [t [[]|e]] eqn:Hx; simpl.
    + destruct (for_each xs body) as [t' r]. simpl in *.
      intros [Hev|Hev]%elem_of_app.
      * exists x. split; [left|by rewrite Hx].
      * destruct (IH Hev) as (y & ? & ?). exists y. split; [by right|done].
    + intros Hev. exists x. split; [left|by rewrite Hx].
Qed.

(** The loop up to the first iteration that raises. *)
Lemma for_each_raise_at {A} (xs ys : list A) (x : A) (body : A → M unit)
    (f : A → list event) (t : list event) (e : exn) :
  (∀ y, y ∈ xs → body y = (f y, Ok ())) → body x = (t, Raise e) →
  for_each (xs ++ x :: ys) body = (flat_map f xs ++ t, Raise e).
Proof.
  intros Hxs Hx. induction xs as [|y xs IH]; simpl.
  - by rewrite Hx.
  - rewrite (Hxs y) by left. rewrite IH by (intros; apply Hxs; by right).
    unfold mbind, M_bind. by rewrite (assoc_L (++)).
Qed.

Lemma attempt_events (i : nat) (m : string) (ev : event) :
  ev ∈ trace (attempt' i m) →
  ev = YoutubeDL (attempt_opts (out_subdir self i)) ∨
  ev = Log INFO "Downloading manifest: %s" [AStr m] None ∨
  ev = Download (attempt_opts (out_subdir self i)) [m].
Proof.
  clear makedirs_error session_get http_error script_tags urljoin.
  unfold attempt, download_manifest_with_ytdlp, attempt_opts. simpl.
  destruct yt_dlp as [tool|]; [|by intros ?%elem_of_nil].
  destruct (tool _) as [ydl|e]; simpl.
  - destruct (ydl [m]); simpl; rewrite !elem_of_cons, elem_of_nil;
      naive_solver.
  - rewrite elem_of_cons, elem_of_nil. naive_solver.
Qed.

Lemma download_step_events (i : nat) (m : string) (ev : event) :
  ev ∈ trace (download_step' (i, m)) →
  ev = MakeDirs (out_subdir self i) ∨ ev ∈ trace (attempt' i m) ∨
  ∃ e, ev = Log ERROR "Failed to download manifest: %s" [AStr m] (Some e).
Proof.
  destruct (makedirs_error (out_subdir self i)) as [e|] eqn:E.
  - rewrite (download_step_makedirs_raise _ _ _ _ _ _ E).
    intros [->|?%elem_of_nil]%elem_of_cons; [by left|done].
  - rewrite download_step_isolated by done. unfold isolated_attempt, trace.
    simpl. rewrite elem_of_cons, elem_of_app.
    intros [->|[?|Hev]]; [by left|by right; left|].
    destruct (outcome (attempt' i m)) as [[]|e];
      [by apply elem_of_nil in Hev|].
    apply list_elem_of_singleton in Hev. right. right. by exists e.
Qed.

(** What an event of a run of [download_course] can be. *)
Lemma download_course_event_cases (url : string) (ev : event) :
  ev ∈ trace (download_course' url) →
  (∃ lvl msg args exc, ev = Log lvl msg args exc) ∨ ev = Get url ∨
  ∃ resp i m, fetch_gives' url resp ∧
              (i, m) ∈ enumerate 1 (discover' (text resp) url) ∧
              (ev = MakeDirs (out_subdir self i) ∨
               ev = YoutubeDL (attempt_opts (out_subdir self i)) ∨
               ev = Download (attempt_opts (out_subdir self i)) [m]).
Proof.
  destruct (fetch_cases session_get http_error self url) as [[e H]|[resp H]].
  - unfold download_course.
    rewrite (fetch_course_page_fails _ _ _ _ _ H). simpl.
    rewrite !elem_of_cons, elem_of_nil. intros [->|[->|[]]]; [left|by right; left].
    by do 4 eexists.
  - rewrite (download_course_fetched _ _ _ _ _ _ _ _ _ H). cbn zeta.
    unfold trace at 1. cbn [fst]. rewrite !elem_of_cons.
    intros [->|[->|[->|Hev]]];
      [left; by do 4 eexists|by right; left|left; by do 4 eexists|].
    destruct (discover' (text resp) url) as [|m0 ms] eqn:Hms.
    + simpl in Hev. apply list_elem_of_singleton in Hev as ->.
      left. by do 4 eexists.
    + apply for_each_trace_elem in Hev as ([i m] & Him & Hev).
      rewrite <- Hms in Him.
      apply download_step_events in Hev as [->|[Hev|[e ->]]].
      * right. right. exists resp, i, m. split_and!; [done.. | by left].
      * apply attempt_events in Hev as [-> | [-> | ->]].
        -- right. right. exists resp, i, m.
           split_and!; [done.. | by right; left].
        -- left. by do 4 eexists.
        -- right. right. exists resp, i, m.
           split_and!; [done.. | by right; right].
      * left. by do 4 eexists.
Qed.

(** X15.  In a run of [download_course] the only request is the one for
    the course URL, no file is read, every directory made is the
    numbered directory of a discovered manifest, and the tool is built
    and run only for a discovered manifest: with the output template
    under that manifest's directory, unplayable formats allowed,
    playlists off, not quiet, and that one URL to fetch. *)
Theorem download_course_well_formed_events (url : string) :
  Forall
    (λ ev,
       match ev with
       | Get u => u = url
       | ReadFile _ => False
       | MakeDirs p =>
           ∃ resp i m, fetch_gives' url resp ∧
                       (i, m) ∈ enumerate 1 (discover' (text resp) url) ∧
                       p = out_subdir self i
       | YoutubeDL opts =>
           ∃ resp i m, fetch_gives' url resp ∧
                       (i, m) ∈ enumerate 1 (discover' (text resp) url) ∧
                       opts = YdlOpts
                                (Path.join (out_subdir self i)
                                   "%(title)s.%(ext)s")
                                true true false
       | Download opts urls =>
           ∃ resp i m, fetch_gives' url resp ∧
                       (i, m) ∈ enumerate 1 (discover' (text resp) url) ∧
                       opts = YdlOpts
                                (Path.join (out_subdir self i)
                                   "%(title)s.%(ext)s")
                                true true false ∧
                       urls = [m]
       | Log _ _ _ _ => True
       end)
    (trace (download_course' url)).
Proof.
  apply Forall_forall. intros ev Hev.
  apply download_course_event_cases in Hev
    as [(lvl & msg & args & exc & ->)|[->|(resp & i & m & Hf & Him & Hev)]];
    [done..|].
  destruct Hev as [-> | [-> | ->]]; by exists resp, i, m.
Qed.

(** X17.  When a numbered directory cannot be made the run stops there
    with that error: the manifests before it were attempted, each in
    isolation, and none after it is touched. *)
Theorem download_course_stops_at_makedirs (url : string) (resp : response)
    (pre post : list string) (m : string) (e : exn) :
  fetch_gives' url resp →
  discover' (text resp) url = pre ++ m :: post →
  (∀ i m', (i, m') ∈ enumerate 1 pre →
           makedirs_error (out_subdir self i) = None) →
  makedirs_error (out_subdir self (S (length pre))) = Some e →
  download_course' url =
    ([Log INFO "Fetching course page: %s" [AStr url] None; Get url;
      Log INFO "Found %d manifest(s)"
        [AInt (length (pre ++ m :: post))] None]
     ++ flat_map (isolated_attempt yt_dlp self) (enumerate 1 pre)
     ++ [MakeDirs (out_subdir self (S (length pre)))],
     Raise e).
Proof.
  intros Hfetch Hms Hpre Hdir.
  rewrite (download_course_fetched _ _ _ _ _ _ _ _ _ Hfetch), Hms. cbn zeta.
  assert (for_each (enumerate 1 (pre ++ m :: post)) download_step' =
          (flat_map (isolated_attempt yt_dlp self) (enumerate 1 pre)
           ++ [MakeDirs (out_subdir self (S (length pre)))], Raise e))
    as Hloop.
  { rewrite enumerate_app. simpl. apply for_each_raise_at.
    - intros [i m'] Him. by rewrite download_step_isolated by eauto.
    - by apply download_step_makedirs_raise. }
  destruct (pre ++ m :: post) eqn:E; [by destruct pre|].
  by rewrite Hloop.
Qed.

Lemma made_dirs_app (t1 t2 : list event) :
  made_dirs (t1 ++ t2) = made_dirs t1 ++ made_dirs t2.
Proof. apply omap_app. Qed.

Lemma made_dirs_attempt (i : nat) (m : string) :
  made_dirs (isolated_attempt yt_dlp self (i, m)) = [out_subdir self i].
Proof.
  unfold isolated_attempt. simpl. f_equal.
  rewrite made_dirs_app.
  assert (∀ t, (∀ ev, ev ∈ t → ∀ p, ev ≠ MakeDirs p) → made_dirs t = [])
    as Hnone.
  { induction t as [|ev t IH]; intros H; [done|]. unfold made_dirs. simpl.
    destruct ev; try (apply IH; intros; apply H; by right).
    by destruct (H (MakeDirs path) (list_elem_of_here _ _) path). }
  rewrite Hnone.
  - destruct (outcome _); done.
  - intros ev [-> | [-> | ->]]%attempt_events p; done.
Qed.

Lemma made_dirs_attempts (l : list (nat * string)) :
  made_dirs (flat_map (isolated_attempt yt_dlp self) l)
  = out_subdir self <$> l.*1.
Proof.
  induction l as [|[i m] l IH]; [done|]. cbn [flat_map].
  rewrite made_dirs_app, made_dirs_attempt, IH. done.
Qed.

(** X18.  When every numbered directory can be made, the directories a
    run makes are [manifest_1] to [manifest_n] for the n manifests
    found, in this order and each once. *)
Theorem download_course_made_dirs (url : string) (resp : response) :
  let n := length (discover' (text resp) url) in
  fetch_gives' url resp →
  (∀ i, 1 ≤ i ≤ n → makedirs_error (out_subdir self i) = None) →
  made_dirs (trace (download_course' url)) = out_subdir self <$> seq 1 n ∧
  NoDup (made_dirs (trace (download_course' url))).
Proof.
  intros n Hfetch Hdirs.
  assert (made_dirs (trace (download_course' url))
          = out_subdir self <$> seq 1 n) as E.
  { rewrite (download_course_fetched _ _ _ _ _ _ _ _ _ Hfetch). cbn zeta.
    unfold trace at 1. cbn [fst]. subst n.
    destruct (discover' (text resp) url) as [|m0 ms] eqn:Hms; [done|].
    rewrite for_each_ok with (f := isolated_attempt yt_dlp self).
    - unfold trace. cbn [fst]. change (made_dirs (?a :: ?b :: ?c :: ?t))
        with (made_dirs t).
      by rewrite made_dirs_attempts, enumerate_fst.
    - intros [i m] Him. apply download_step_isolated, Hdirs.
      apply elem_of_enumerate in Him as [? Hm%lookup_lt_Some]. lia. }
  split; [done|]. rewrite E. apply NoDup_fmap_2_strong; [|apply NoDup_seq].
  intros i j _ _ H. by apply (out_subdir_inj_aux self).
Qed.

End DownloadMore.

Section ToolMissing.

Variable makedirs_error : string → option exn.
Variable session_get : session → string → result response.
Variable http_error : response → option exn.
Variable script_tags : string → list (option string).
Variable urljoin : string → string → string.
Variable self : downloader.

(** X19.  Without the tool installed, and when every numbered
    directory can be made, a run over a fetched page with manifests
    makes each of these directories, records one failure per manifest,
    naming it, never builds or runs the tool, and ends normally. *)
Theorem download_course_tool_missing (url : string) (resp : response) :
  let ms := discover_manifest_urls script_tags urljoin (text resp) url in
  fetch_gives session_get http_error self url resp →
  ms ≠ [] →
  (∀ i, 1 ≤ i ≤ length ms → makedirs_error (out_subdir self i) = None) →
  download_course makedirs_error session_get http_error script_tags urljoin
    None self url =
  ([Log INFO "Fetching course page: %s" [AStr url] None; Get url;
    Log INFO "Found %d manifest(s)" [AInt (length ms)] None]
   ++ flat_map
        (λ im,
           [MakeDirs (out_subdir self im.1);
            Log ERROR "Failed to download manifest: %s" [AStr im.2]
              (Some (RuntimeError "yt_dlp not installed in environment"))])
        (enumerate 1 ms),
   Ok ()).
Proof.
  intros ms Hfetch Hne Hdirs.
  rewrite (download_course_fetched _ _ _ _ _ _ _ _ _ Hfetch). cbn zeta.
  fold ms.
  rewrite for_each_ok with
    (f := λ im : nat * string,
       [MakeDirs (out_subdir self im.1);
        Log ERROR "Failed to download manifest: %s" [AStr im.2]
          (Some (RuntimeError "yt_dlp not installed in environment"))]).
  - by destruct ms.
  - intros [i m] Him. rewrite download_step_isolated; [done|].
    apply Hdirs. apply elem_of_enumerate in Him as [? Hm%lookup_lt_Some].
    lia.
Qed.

End ToolMissing.

(** ** The command line *)

Section MainMore.
Import CLI.

Variable getcwd : string.
Variable makedirs_error : string → option exn.
Variable path_exists : string → bool.
Variable read_text : string → result string.
Variable default_headers : gmap string string.
Variable session_get : session → string → result response.
Variable http_error : response → option exn.
Variable script_tags : string → list (option string).
Variable anchor_hrefs : string → list string.
Variable urljoin : string → string → string.
Variable yt_dlp : option (ydl_opts → result (list string → option exn)).

Local Abbreviation construct' :=
  (construct getcwd makedirs_error path_exists read_text default_headers).
Local Abbreviation main' :=
  (main getcwd makedirs_error path_exists read_text default_headers
     session_get http_error script_tags anchor_hrefs urljoin yt_dlp).
Local Abbreviation enrolled' :=
  (get_enrolled_courses session_get http_error anchor_hrefs urljoin).
Local Abbreviation course' :=
  (download_course makedirs_error session_get http_error script_tags
     urljoin yt_dlp).
Local Abbreviation batch_step' :=
  (batch_step makedirs_error session_get http_error script_tags urljoin
     yt_dlp).

(** The block once the object is built. *)
Lemma main_constructed (a : args) (dl : downloader) :
  outcome (construct' a) = Ok dl →
  main' a =
  let rest : Cli unit :=
    if list_enrolled a || download_enrolled a then
      courses ← lift (enrolled' dl None);
      (if list_enrolled a then print (String.concat newline courses)
       else mret ()) ;;
      (if download_enrolled a then for_each_cli courses (batch_step' dl)
       else mret ())
    else if truthy (course_url a) then
      lift (course' dl (default EmptyString (course_url a)))
    else print_help in
  ((Effect <$> trace (construct' a)) ++ rest.1, rest.2).
Proof.
  unfold main. destruct (construct' a) as [t r]. simpl. intros ->.
  unfold mbind at 1, Cli_bind at 1, lift at 1. simpl.
  by destruct (if list_enrolled a || download_enrolled a then _ else _).
Qed.

Lemma main_not_constructed (a : args) (e : exn) :
  outcome (construct' a) = Raise e →
  main' a = (Effect <$> trace (construct' a), Raise e).
Proof.
  unfold main. destruct (construct' a) as [t r]. simpl. by intros ->.
Qed.

Lemma construct_events (a : args) (ev : event) :
  ev ∈ trace (construct' a) →
  (∃ p, ev = MakeDirs p) ∨
  (ev = ReadFile "cookies.txt" ∧ truthy (bearer a) = false) ∨
  ∃ lvl msg args exc, ev = Log lvl msg args exc.
Proof.
  unfold construct. rewrite init_cases. cbn zeta. unfold trace.
  destruct (makedirs_error _); simpl.
  { intros [->|[]%elem_of_nil]%elem_of_cons. left. by eexists. }
  destruct (truthy (bearer a)) eqn:Hb; simpl.
  { intros [->|[]%elem_of_nil]%elem_of_cons. left. by eexists. }
  destruct (path_exists "cookies.txt"); simpl.
  - destruct (read_text "cookies.txt"); simpl; rewrite !elem_of_cons,
      elem_of_nil.
    + intros [->|[->|[]]]; [left; by eexists|by right; left].
    + intros [->|[->|[->|[]]]];
        [left; by eexists|by right; left|right; right; by do 4 eexists].
  - intros [->|[]%elem_of_nil]%elem_of_cons. left. by eexists.
Qed.

Lemma requests_app (t1 t2 : list output) :
  requests (t1 ++ t2) = requests t1 ++ requests t2.
Proof. apply omap_app. Qed.

Lemma requests_construct (a : args) :
  requests (Effect <$> trace (construct' a)) = [].
Proof.
  assert (∀ t : list event,
            (∀ ev, ev ∈ t → ∀ u, ev ≠ Get u) →
            requests (Effect <$> t) = []) as Hnone.
  { induction t as [|ev t IH]; intros H; [done|]. unfold requests. simpl.
    destruct ev; try (apply IH; intros; apply H; by right).
    by destruct (H (Get url) (list_elem_of_here _ _) url). }
  apply Hnone. intros ev Hev u.
  apply construct_events in Hev
    as [[p ->]|[[-> _]|(lvl & msg & args & exc & ->)]]; done.
Qed.

Lemma enrolled_returns (dl : downloader) (d : option string) :
  ∃ t courses,
    enrolled' dl d = (t, Ok courses) ∧
    ∀ ev, ev ∈ t →
          (∃ u, ev = Get u) ∨ ∃ lvl msg args exc, ev = Log lvl msg args exc.
Proof.
  destruct (fetch_cases session_get http_error dl
              (default "https://web.careerwill.com/" d))
    as [[e H]|[resp H]].
  - rewrite (enrolled_courses_fails _ _ _ _ _ d e H). do 2 eexists.
    split; [done|]. intros ev. rewrite !elem_of_cons, elem_of_nil.
    intros [->|[->|[]]]; [left; by eexists|right; by do 4 eexists].
  - rewrite (enrolled_courses_ok _ _ _ _ _ d resp H). do 2 eexists.
    split; [done|]. intros ev. rewrite !elem_of_cons, elem_of_nil.
    intros [->|[->|[]]]; [left; by eexists|right; by do 4 eexists].
Qed.

(** X20.  Called with neither flag nor a course URL, the block builds
    the object, prints the usage text and stops: no request is sent. *)
Theorem main_prints_help (a : args) :
  list_enrolled a = false → download_enrolled a = false →
  truthy (course_url a) = false →
  requests (main' a).1 = [] ∧
  ∀ dl, outcome (construct' a) = Ok dl →
        main' a = ((Effect <$> trace (construct' a)) ++ [PrintHelp], Ok ()).
Proof.
  intros Hl Hd Hc.
  assert (∀ dl, outcome (construct' a) = Ok dl →
                main' a
                = ((Effect <$> trace (construct' a)) ++ [PrintHelp], Ok ()))
    as Hok.
  { intros dl Hdl. rewrite (main_constructed a dl Hdl).
    by rewrite Hl, Hd, Hc. }
  split; [|done].
  destruct (outcome (construct' a)) as [dl|e] eqn:Hdl.
  - rewrite (Hok dl) by done. simpl.
    by rewrite requests_app, requests_construct.
  - rewrite (main_not_constructed a e Hdl). apply requests_construct.
Qed.

(** X21.  With the listing flag alone, once the object is built and
    [get_enrolled_courses] has returned its list, the block prints the
    courses of the list, one per line in one [print], and ends
    normally; a course URL given beside the flag is not used. *)
Theorem main_lists_courses (a : args) (dl : downloader)
    (courses : list string) :
  list_enrolled a = true → download_enrolled a = false →
  outcome (construct' a) = Ok dl →
  outcome (enrolled' dl None) = Ok courses →
  main' a =
    ((Effect <$> trace (construct' a))
     ++ (Effect <$> trace (enrolled' dl None))
     ++ [Print (String.concat newline courses)],
     Ok ()).
Proof.
  intros Hl Hd Hdl Hcs. rewrite (main_constructed a dl Hdl), Hl, Hd. simpl.
  destruct (enrolled' dl None) as [t r]. simpl in Hcs. subst r. done.
Qed.

Lemma for_each_cli_raise_at {A} (xs ys : list A) (x : A)
    (body : A → Cli unit) (f : A → list output) (t : list output)
    (e : exn) :
  (∀ y, y ∈ xs → body y = (f y, Ok ())) → body x = (t, Raise e) →
  for_each_cli (xs ++ x :: ys) body = (flat_map f xs ++ t, Raise e).
Proof.
  intros Hxs Hx. induction xs as [|y xs IH]; simpl.
  - by rewrite Hx.
  - rewrite (Hxs y) by left. rewrite IH by (intros; apply Hxs; by right).
    unfold mbind, Cli_bind. by rewrite (assoc_L (++)).
Qed.

Lemma for_each_cli_elem {A} (xs : list A) (body : A → Cli unit)
    (o : output) :
  o ∈ (for_each_cli xs body).1 → ∃ x, x ∈ xs ∧ o ∈ (body x).1.
Proof.
  induction xs as [|x xs IH]; simpl.
  - by intros ?%elem_of_nil.
  - destruct (body x) as [t [[]|e]] eqn:Hx; simpl.
    + destruct (for_each_cli xs body) as [t' r]. simpl in *.
      intros [Ho|Ho]%elem_of_app.
      * exists x. split; [left|by rewrite Hx].
      * destruct (IH Ho) as (y & ? & ?). exists y. split; [by right|done].
    + intros Ho. exists x. split; [left|by rewrite Hx].
Qed.

Lemma batch_step_run (dl : downloader) (course : string) :
  batch_step' dl course =
  (Print (newline +:+ "=== Downloading course: " +:+ course +:+ " ===")
   :: (Effect <$> trace (course' dl course)),
   outcome (course' dl course)).
Proof.
  unfold batch_step, print, lift. by destruct (course' dl course).
Qed.

(** X22.  In batch mode the courses are not isolated from one another:
    when the run of one course raises, the block ends with that error
    right there, and the courses after it are not announced, fetched or
    downloaded. *)
Theorem main_batch_stops (a : args) (dl : downloader)
    (pre post : list string) (c : string) (e : exn) :
  download_enrolled a = true →
  outcome (construct' a) = Ok dl →
  outcome (enrolled' dl None) = Ok (pre ++ c :: post) →
  (∀ c', c' ∈ pre → outcome (course' dl c') = Ok ()) →
  outcome (course' dl c) = Raise e →
  main' a =
    ((Effect <$> trace (construct' a))
     ++ (Effect <$> trace (enrolled' dl None))
     ++ (if list_enrolled a
         then [Print (String.concat newline (pre ++ c :: post))] else [])
     ++ flat_map (λ c', (batch_step' dl c').1) pre
     ++ (batch_step' dl c).1,
     Raise e).
Proof.
  intros Hd Hdl Hcs Hpre Hc. rewrite (main_constructed a dl Hdl), Hd.
  rewrite orb_true_r. cbn zeta.
  destruct (enrolled' dl None) as [t r] eqn:E. simpl in Hcs. subst r.
  assert (for_each_cli (pre ++ c :: post) (batch_step' dl) =
          (flat_map (λ c', (batch_step' dl c').1) pre
           ++ (batch_step' dl c).1, Raise e)) as Hloop.
  { apply for_each_cli_raise_at.
    - intros c' Hc'. rewrite batch_step_run. by rewrite (Hpre c' Hc').
    - rewrite batch_step_run. by rewrite Hc. }
  unfold lift. simpl. rewrite Hloop.
  destruct (list_enrolled a); simpl; by rewrite ?(assoc_L (++)).
Qed.

Lemma files_read_app (t1 t2 : list output) :
  files_read (t1 ++ t2) = files_read t1 ++ files_read t2.
Proof. apply omap_app. Qed.

Lemma elem_of_files_read (t : list output) (f : string) :
  f ∈ files_read t ↔ Effect (ReadFile f) ∈ t.
Proof.
  unfold files_read. rewrite list_elem_of_omap. split.
  - intros (o & Ho & E). destruct o as [[]| |]; simplify_eq. done.
  - intros H. by exists (Effect (ReadFile f)).
Qed.

Lemma main_output_cases (a : args) (o : output) :
  o ∈ (main' a).1 →
  (∃ ev, o = Effect ev ∧ ev ∈ trace (construct' a)) ∨
  (∃ dl d ev, o = Effect ev ∧ ev ∈ trace (enrolled' dl d)) ∨
  (∃ dl c ev, o = Effect ev ∧ ev ∈ trace (course' dl c)) ∨
  (∃ line, o = Print line) ∨ o = PrintHelp.
Proof.
  destruct (outcome (construct' a)) as [dl|e] eqn:Hdl.
  2:{ rewrite (main_not_constructed a e Hdl). simpl.
      intros (ev & -> & Hev)%list_elem_of_fmap. left. by exists ev. }
  rewrite (main_constructed a dl Hdl). cbn zeta. cbn [fst].
  intros [(ev & -> & Hev)%list_elem_of_fmap|Ho]%elem_of_app.
  { left. by exists ev. }
  right. destruct (list_enrolled a || download_enrolled a).
  - destruct (enrolled_returns dl None) as (t & courses & E & _).
    assert (∀ ev, ev ∈ t → ev ∈ trace (enrolled' dl None)) as Ht
      by (by rewrite E).
    pose proof (for_each_cli_elem courses (batch_step' dl) o) as Hloop.
    rewrite E in Ho. unfold lift, mbind, Cli_bind, print, mret, Cli_ret in Ho.
    cbn [fst snd] in Ho.
    destruct (for_each_cli courses (batch_step' dl)) as [t' r].
    assert (o ∈ t' → (∃ dl c ev, o = Effect ev ∧ ev ∈ trace (course' dl c))
                     ∨ (∃ line, o = Print line) ∨ o = PrintHelp) as Hbatch.
    { intros (c & _ & Hc)%Hloop. rewrite batch_step_run in Hc. simpl in Hc.
      apply elem_of_cons in Hc as [->|(ev & -> & Hev)%list_elem_of_fmap];
        [right; left; by eexists|left; by exists dl, c, ev]. }
    destruct (list_enrolled a), (download_enrolled a); simpl in Ho;
      rewrite ?elem_of_app, ?elem_of_cons, ?elem_of_nil in Ho.
    + destruct Ho as [(ev & -> & Hev)%list_elem_of_fmap|[->|Ho]].
      * left. exists dl, None, ev. eauto.
      * right. right. left. by eexists.
      * right. by apply Hbatch.
    + destruct Ho as [(ev & -> & Hev)%list_elem_of_fmap|[->|[]]].
      * left. exists dl, None, ev. eauto.
      * right. right. left. by eexists.
    + destruct Ho as [(ev & -> & Hev)%list_elem_of_fmap|Ho].
      * left. exists dl, None, ev. eauto.
      * right. by apply Hbatch.
    + destruct Ho as [(ev & -> & Hev)%list_elem_of_fmap|[]].
      left. exists dl, None, ev. eauto.
  - destruct (truthy (course_url a)).
    + unfold lift in Ho. simpl in Ho.
      apply list_elem_of_fmap in Ho as (ev & -> & Hev).
      right. left. by exists dl, (default "" (course_url a)), ev.
    + apply list_elem_of_singleton in Ho as ->. by do 3 right.
Qed.

(** X23.  The only file the block ever reads is [cookies.txt], and it
    reads it only when no bearer token is given. *)
Theorem main_reads_only_cookies_txt (a : args) :
  Forall (λ f, f = "cookies.txt" ∧ truthy (bearer a) = false)
    (files_read (main' a).1).
Proof.
  apply Forall_forall. intros f Hf%elem_of_files_read.
  apply main_output_cases in Hf
    as [(ev & [= <-] & Hev)|[(dl & d & ev & [= <-] & Hev)|
        [(dl & c & ev & [= <-] & Hev)|[[line [=]]|[=]]]]].
  - apply construct_events in Hev
      as [[p [=]]|[[[= ->] Hb]|(lvl & msg & args & exc & [=])]]. done.
  - destruct (enrolled_returns dl d) as (t & courses & E & Ht).
    rewrite E in Hev.
    destruct (Ht _ Hev) as [[u [=]]|(lvl & msg & args & exc & [=])].
  - apply download_course_event_cases in Hev
      as [(lvl & msg & args & exc & [=])|[[=]|(resp & i & m & _ & _ & Hev)]].
    by destruct Hev as [[=]|[[=]|[=]]].
Qed.

End MainMore.

(** ** The further properties on sample inputs *)

Section Instances2.
Import Str Pattern Spec Spec2 Sample Sample2 CLI.

Lemma enrolled_courses_single_request_witness :
  let run :=
    get_enrolled_courses (serve dashboard2) requests_status hrefs2
      urljoin1 self1 None in
  outcome run = Ok ["https://site.example/course/7"] ∧
  ∃ record, trace run = [Get "https://web.careerwill.com/"; record].
Proof.
  intros run. split; [vm_compute; reflexivity|].
  destruct (enrolled_courses_single_request (serve dashboard2)
              requests_status hrefs2 urljoin1 self1 None (trace run)
              ["https://site.example/course/7"])
    as (record & Ht & _).
  - vm_compute. reflexivity.
  - by exists record.
Defined.

Lemma enrolled_courses_count_witness :
  length ["https://site.example/course/7"] ≤ length (hrefs2 dashboard2).
Proof.
  apply (enrolled_courses_count (serve dashboard2) strict_status hrefs2
           urljoin1 self1 None (Response 200 dashboard2)).
  - split; reflexivity.
  - vm_compute. reflexivity.
Defined.

Lemma load_line_extra_fields_ignored_witness :
  Cookies.load_line [] (line7 +:+ String Cookies.tab "extra")
  = Cookies.load_line [] line7.
Proof.
  apply load_line_extra_fields_ignored; [reflexivity|vm_compute; lia].
Defined.

Lemma init_credentials_exclusive_witness :
  headers (dl_session tok_dl) = <["Authorization" := "Bearer tok"]> ∅ ∧
  cookies (dl_session tok_dl) = [].
Proof.
  destruct (init_credentials_exclusive "/home/u" makedirs_ok
              only_cookies_txt unreadable_file ∅ (Some "tok")
              (Some "cookies.txt") None (Some "out") tok_dl)
    as (_ & H & _); [reflexivity|].
  apply H. reflexivity.
Defined.

Lemma init_unreadable_cookie_file_witness :
  outcome (init "/home/u" makedirs_ok only_cookies_txt unreadable_file ∅
             None (Some "cookies.txt") None (Some "out"))
  = Ok plain_dl.
Proof.
  rewrite (init_unreadable_cookie_file "/home/u" makedirs_ok
             only_cookies_txt unreadable_file ∅ None "cookies.txt" None
             (Some "out") (UnicodeDecodeError "invalid start byte"));
    reflexivity.
Defined.

Lemma init_raises_only_for_output_dir_witness :
  init "/home/u" makedirs_denied no_file unreadable_file ∅ None None None
    (Some "out")
  = ([MakeDirs "out"], Raise (OSError "permission denied")).
Proof.
  apply (init_raises_only_for_output_dir "/home/u" makedirs_denied no_file
           unreadable_file ∅ None None None "out"
           (OSError "permission denied")); reflexivity.
Defined.

Lemma download_course_stops_at_makedirs_witness :
  outcome
    (download_course makedirs_fail_2 (serve page3) strict_status no_tags
       urljoin1 (failing_on "") self1 url3)
  = Raise (OSError "permission denied").
Proof.
  rewrite (download_course_stops_at_makedirs makedirs_fail_2 (serve page3)
             strict_status no_tags urljoin1 (failing_on "") self1 url3
             (Response 200 page3) ["https://cdn.example.com/3.m3u8?t=9"]
             ["https://cdn.example.com/2.mpd"]
             "https://cdn.example.com/1.m3u8"
             (OSError "permission denied")).
  - reflexivity.
  - split; reflexivity.
  - vm_compute. reflexivity.
  - intros i m H. apply list_elem_of_singleton in H.
    injection H as -> ->. reflexivity.
  - reflexivity.
Defined.

Lemma download_course_made_dirs_witness :
  made_dirs
    (trace (download_course makedirs_ok (serve page3) strict_status no_tags
              urljoin1 (failing_on "") self1 url3))
  = ["out/manifest_1"; "out/manifest_2"; "out/manifest_3"].
Proof.
  destruct (download_course_made_dirs makedirs_ok (serve page3)
              strict_status no_tags urljoin1 (failing_on "") self1 url3
              (Response 200 page3)) as [H _].
  - split; reflexivity.
  - intros i _. reflexivity.
  - rewrite H. vm_compute. reflexivity.
Defined.

Lemma download_course_tool_missing_witness :
  outcome
    (download_course makedirs_ok (serve page3) strict_status no_tags
       urljoin1 None self1 url3)
  = Ok ().
Proof.
  rewrite (download_course_tool_missing makedirs_ok (serve page3)
             strict_status no_tags urljoin1 self1 url3
             (Response 200 page3)).
  - reflexivity.
  - split; reflexivity.
  - vm_compute. discriminate.
  - intros i _. reflexivity.
Defined.

Lemma main_prints_help_witness :
  requests
    (main "/home/u" makedirs_ok no_file unreadable_file ∅ unreachable
       strict_status no_tags hrefs1 urljoin1 None args_help).1
  = [].
Proof.
  apply (main_prints_help "/home/u" makedirs_ok no_file unreadable_file ∅
           unreachable strict_status no_tags hrefs1 urljoin1 None
           args_help); reflexivity.
Defined.

Lemma main_lists_courses_witness :
  (main "/home/u" makedirs_ok no_file unreadable_file ∅ (serve dashboard2)
     strict_status no_tags hrefs2 urljoin1 None args_list).2
  = Ok ().
Proof.
  rewrite (main_lists_courses "/home/u" makedirs_ok no_file
             unreadable_file ∅ (serve dashboard2) strict_status no_tags
             hrefs2 urljoin1 None args_list plain_dl
             ["https://site.example/course/7"]);
    [reflexivity..|].
  vm_compute. reflexivity.
Defined.

Lemma main_batch_stops_witness :
  (main "/home/u" makedirs_ok no_file unreadable_file ∅
     serve_dashboard_only strict_status no_tags hrefs3 urljoin1 None
     args_batch).2
  = Raise (HTTPError 404).
Proof.
  rewrite (main_batch_stops "/home/u" makedirs_ok no_file unreadable_file
             ∅ serve_dashboard_only strict_status no_tags hrefs3 urljoin1
             None args_batch plain_dl [] ["https://site.example/course/2"]
             "https://site.example/course/1" (HTTPError 404)).
  - reflexivity.
  - reflexivity.
  - reflexivity.
  - vm_compute. reflexivity.
  - intros c' H. by apply elem_of_nil in H.
  - vm_compute. reflexivity.
Defined.

End Instances2.
